(** * Expense tracker: aggregation engine and settlement ledger

    A shallow embedding of [src/app.py].  The three Mongo collections are
    lists of records in the order the driver iterates them, [find(query)]
    is a filter over such a list, and the wall clock read by
    [now_year_month] is an explicit argument.  Dictionaries built by the
    code are finite maps.

    The code stores every amount as a Python float.  The development has
    two parts.  In the first part amounts are the exact rationals [Qc];
    it carries the statements about which records, which keys and which
    months a result is made of, and about the strings of the intake.
    Every sum there is taken in the order the code takes it (left to
    right, starting from the integer 0).  The second part, the module
    [Binary64], embeds the arithmetic helpers, the intake of shared
    expenses and the ledger over binary64 floats, for the statements
    that depend on how the float operations round. *)

From Stdlib Require Import ZArith QArith Qcanon Qround Field Lia Lqa List Permutation Ascii.
From Stdlib Require PrimFloat SpecFloat FloatOps FloatAxioms.
From stdpp Require Import base numbers list strings countable gmap fin_maps sorting.

(** Decimal literals stand for the nearest float, as in Python. *)
Set Warnings "-inexact-float".

(** ** Python builtins used by the code *)

Section Builtins.

Local Open Scope Z_scope.

(** [l[i]] for a Python list: a negative index counts from the end, an
    index outside [-len .. len-1] raises [IndexError] ([None]). *)
Definition py_index {A : Type} (l : list A) (i : Z) : option A :=
  let n := Z.of_nat (length l) in
  if (0 <=? i) && (i <? n) then l !! Z.to_nat i
  else if (- n <=? i) && (i <? 0) then l !! Z.to_nat (n + i)
  else None.

(** [range(1, k + 1)] *)
Definition range1 (k : Z) : list Z :=
  map (fun i => Z.of_nat i + 1) (seq 0 (Z.to_nat k)).

(** [sum(xs)]: the accumulator starts at 0 and the items are added from
    left to right. *)
Definition py_sum (xs : list Qc) : Qc :=
  fold_left Qcplus xs (Q2Qc 0).

(** Nearest integer, ties to the even neighbour. *)
Definition round_half_even (x : Q) : Z :=
  let f := Qfloor x in
  match Qcompare (x - inject_Z f) (1 # 2) with
  | Lt => f
  | Gt => f + 1
  | Eq => if Z.even f then f else f + 1
  end.

(** [round(x, 2)] *)
Definition round2 (x : Qc) : Qc :=
  Q2Qc (round_half_even (this x * inject_Z 100) # 100).

End Builtins.

(** [str] methods.  A string is a sequence of characters; the code only
    compares characters with the comma and asks whether they are white
    space, so the alphabet and [isspace] are left open. *)

Section Str.

Context {char : Type} `{EqDecision char}.
Variable comma : char.
Variable isspace : char -> bool.

(** [s.split(",")]: always at least one field, empty fields kept. *)
Fixpoint split (s : list char) : list (list char) :=
  match s with
  | [] => [[]]
  | c :: s' =>
      if decide (c = comma) then [] :: split s'
      else match split s' with
           | w :: ws => (c :: w) :: ws
           | [] => [[c]]
           end
  end.

Fixpoint lstrip (s : list char) : list char :=
  match s with
  | [] => []
  | c :: s' => if isspace c then lstrip s' else s
  end.

Definition rstrip (s : list char) : list char :=
  rev (lstrip (rev s)).

(** [s.strip()] *)
Definition strip (s : list char) : list char :=
  rstrip (lstrip s).

(** Truth value of a string: false exactly for the empty string. *)
Definition truthy (s : list char) : bool :=
  match s with [] => false | _ :: _ => true end.

End Str.

(** ** Time utilities *)

(** [calendar.month_name]: thirteen entries, the one at index 0 is the
    empty string (standard library, C locale). *)
Definition calendar_month_name : list string :=
  [""; "January"; "February"; "March"; "April"; "May"; "June"; "July";
   "August"; "September"; "October"; "November"; "December"]%string.

(** [month_name(num)]; [None] is the [IndexError] of the subscript. *)
Definition month_name (num : Z) : option string :=
  py_index calendar_month_name num.

(** What [now_year_month()] returned: [(now.year, now.month)]. *)
Record clock := Clock { current_year : Z; current_month : Z }.

(** ** Personal expenses and budgets *)

(** A document of [expenses_collection] ([created_at] and [_id] are not
    read by any computation and are left out). *)
Record expense := Expense {
  amount : Qc;
  category : string;
  description : string;
  payment_mode : string;
  date : string;
  month : Z;
  year : Z;
  is_shared : bool;
  is_deleted : bool
}.

(** A document of [budgets_collection]. *)
Record budget := Budget {
  budget_category : string;
  monthly_limit : Qc
}.

(** The dictionary appended by [budget_alerts]. *)
Record alert := Alert {
  alert_category : string;
  limit : Qc;
  spent : Qc
}.

(** A query document over expenses: a field that is absent puts no
    condition, a field that is present must be matched exactly. *)
Record query := Query {
  q_month : option Z;
  q_year : option Z;
  q_is_deleted : option bool;
  q_is_shared : option bool
}.

Definition field_ok {A : Type} `{EqDecision A} (cond : option A) (v : A) : bool :=
  match cond with
  | None => true
  | Some c => bool_decide (v = c)
  end.

Definition matches (q : query) (e : expense) : bool :=
  field_ok (q_month q) (month e) && field_ok (q_year q) (year e)
  && field_ok (q_is_deleted q) (is_deleted e)
  && field_ok (q_is_shared q) (is_shared e).

(** [expenses_collection.find(q)] *)
Definition find (q : query) (expenses_collection : list expense) : list expense :=
  filter (fun e => matches q e = true) expenses_collection.

(** ** Dashboard calculation helpers *)

Section Aggregation.

Variable expenses_collection : list expense.
Variable budgets_collection : list budget.
Variable now_year_month : clock.

Local Open Scope Z_scope.

Definition get_monthly_total (month year : Z) : Qc :=
  py_sum (map amount
    (find {| q_month := Some month; q_year := Some year;
             q_is_deleted := Some false; q_is_shared := Some false |}
          expenses_collection)).

Definition get_yearly_total (year : Z) : Qc :=
  py_sum (map amount
    (find {| q_month := None; q_year := Some year;
             q_is_deleted := Some false; q_is_shared := Some false |}
          expenses_collection)).

(** [if month:] and [if year:] test the truth value of the argument:
    [None] and [0] add no condition. *)
Definition if_truthy (arg : option Z) : option Z :=
  match arg with
  | Some v => if decide (v = 0) then None else Some v
  | None => None
  end.

Definition get_category_totals (month year : option Z) : gmap string Qc :=
  let query := {| q_month := if_truthy month; q_year := if_truthy year;
                  q_is_deleted := Some false; q_is_shared := Some false |} in
  fold_left
    (fun totals exp =>
       <[category exp := (default (Q2Qc 0) (totals !! category exp) + amount exp)%Qc]> totals)
    (find query expenses_collection) ∅.

(** [{month_name(m): 0 for m in ms}], stopping at the first [IndexError]. *)
Fixpoint zero_filled (ms : list Z) (breakdown : gmap string Qc)
    : option (gmap string Qc) :=
  match ms with
  | [] => Some breakdown
  | m :: ms' =>
      name ← month_name m;
      zero_filled ms' (<[name := Q2Qc 0]> breakdown)
  end.

(** One turn of the loop of [get_monthly_breakdown]; [breakdown[k] += v]
    raises [KeyError] ([None]) when [k] is not a key. *)
Definition breakdown_step (months_to_show : Z)
    (breakdown : gmap string Qc) (exp : expense) : option (gmap string Qc) :=
  if month exp <=? months_to_show then
    name ← month_name (month exp);
    old ← breakdown !! name;
    Some (<[name := (old + amount exp)%Qc]> breakdown)
  else Some breakdown.

Fixpoint breakdown_loop (months_to_show : Z) (exps : list expense)
    (breakdown : gmap string Qc) : option (gmap string Qc) :=
  match exps with
  | [] => Some breakdown
  | exp :: exps' =>
      b ← breakdown_step months_to_show breakdown exp;
      breakdown_loop months_to_show exps' b
  end.

Definition get_monthly_breakdown (year : Z) : option (gmap string Qc) :=
  let months_to_show :=
    if decide (year = current_year now_year_month)
    then current_month now_year_month else 12 in
  breakdown ← zero_filled (range1 months_to_show) ∅;
  breakdown_loop months_to_show
    (find {| q_month := None; q_year := Some year;
             q_is_deleted := Some false; q_is_shared := Some false |}
          expenses_collection)
    breakdown.

Definition average_monthly_spend (year : Z) : Qc :=
  let months :=
    if decide (year = current_year now_year_month)
    then current_month now_year_month else 12 in
  if decide (months = 0) then Q2Qc 0
  else round2 (get_yearly_total year / Qc_of_Z months)%Qc.

Definition budget_alerts (month year : Z) : list alert :=
  let totals := get_category_totals (Some month) (Some year) in
  fold_left
    (fun alerts b =>
       let spent := default (Q2Qc 0) (totals !! budget_category b) in
       if decide (monthly_limit b < spent)%Qc
       then alerts ++ [ {| alert_category := budget_category b;
                           limit := monthly_limit b;
                           spent := spent |} ]
       else alerts)
    budgets_collection [].

End Aggregation.

(** ** Shared expenses: records and intake *)

Section SharedRecords.

Context {char : Type} `{EqDecision char}.

(** A document of [shared_collection]; [created_at] and [_id] are not
    read by any computation and are left out. *)
Record shared_expense := SharedExpense {
  title : list char;
  total_amount : Qc;
  paid_by : list char;
  participants : list (list char);
  per_person_amount : Qc;
  shared_date : list char;
  is_settled : bool;
  settled_at : option (list char)
}.

Variable comma : char.
Variable isspace : char -> bool.

(** The comprehension
    [[p.strip() for p in raw.split(",") if p.strip() and p.strip() != paid_by]]. *)
Definition others_of (payer raw : list char) : list (list char) :=
  flat_map
    (fun p =>
       if truthy (strip isspace p) && bool_decide (strip isspace p <> payer)
       then [strip isspace p] else [])
    (split comma raw).

(** The POST branch of [add_shared_expense]: the document handed to
    [insert_one].  [total] is the value of
    [float(request.form["total_amount"])]; when that conversion raises,
    the request is aborted before anything is stored. *)
Definition add_shared_expense
    (form_title form_paid_by form_participants form_date : list char)
    (total : Qc) : shared_expense :=
  let paid_by := form_paid_by in
  let others := others_of paid_by form_participants in
  let people := [paid_by] ++ others in
  let per_person := round2 (total / Qc_of_Z (Z.of_nat (length people))) in
  {| title := form_title;
     total_amount := total;
     paid_by := paid_by;
     participants := people;
     per_person_amount := per_person;
     shared_date := form_date;
     is_settled := false;
     settled_at := None |}.

End SharedRecords.

Arguments shared_expense : clear implicits.

(** ** Shared expense helpers *)

Section Ledger.

Context {char : Type} `{Countable char}.

Local Open Scope Qc_scope.

(** [d.setdefault(k, v)] *)
Definition setdefault (k : list char) (v : Qc) (d : gmap (list char) Qc)
    : gmap (list char) Qc :=
  match d !! k with
  | Some _ => d
  | None => <[k := v]> d
  end.

(** The body of the loop of [calculate_net_balances].  Each augmented
    assignment follows a [setdefault] of the same key, so the key is
    present when [alter] updates it. *)
Definition net_step (balances : gmap (list char) Qc) (exp : shared_expense char)
    : gmap (list char) Qc :=
  let paid_by := paid_by exp in
  let participants := participants exp in
  let per_person := per_person_amount exp in
  let balances := setdefault paid_by (Q2Qc 0) balances in
  let balances := alter (fun b => b + total_amount exp) paid_by balances in
  fold_left
    (fun balances p =>
       alter (fun b => b - per_person) p (setdefault p (Q2Qc 0) balances))
    participants balances.

(** [shared_collection.find({"is_settled": False})] *)
Definition find_unsettled (shared_collection : list (shared_expense char))
    : list (shared_expense char) :=
  filter (fun e => is_settled e = false) shared_collection.

Definition calculate_net_balances (shared_collection : list (shared_expense char))
    : gmap (list char) Qc :=
  fold_left net_step (find_unsettled shared_collection) ∅.

End Ledger.

(** ** The alphabet used in the examples *)

(** [str.isspace] on the code points below 256. *)
Definition ascii_isspace (c : ascii) : bool :=
  let n := nat_of_ascii c in
  ((9 <=? n) && (n <=? 13) || (28 <=? n) && (n <=? 32)
   || (n =? 133) || (n =? 160))%nat.

Definition chars (s : string) : list ascii := String.list_ascii_of_string s.

Definition ascii_comma : ascii := ","%char.

(** ** Vocabulary of the statements *)

Section Vocabulary.

Context {char : Type} `{Countable char}.

Local Open Scope Qc_scope.

(** The balance of [k], an absent participant counting as 0. *)
Definition bal (balances : gmap (list char) Qc) (k : list char) : Qc :=
  default (Q2Qc 0) (balances !! k).

(** What the entries of [ps] equal to [k] are debited in total. *)
Fixpoint debits (k : list char) (ps : list (list char)) (per : Qc) : Qc :=
  match ps with
  | [] => Q2Qc 0
  | p :: ps' => (if decide (p = k) then per else Q2Qc 0) + debits k ps' per
  end.

(** The signed amount one record contributes to the balance of [k]. *)
Definition contribution (exp : shared_expense char) (k : list char) : Qc :=
  (if decide (k = paid_by exp) then total_amount exp else Q2Qc 0)
  - debits k (participants exp) (per_person_amount exp).

End Vocabulary.

(** The personal expenses that count for month [m] of year [y]. *)
Definition counts_for (m y : Z) (e : expense) : Prop :=
  month e = m /\ year e = y /\ is_deleted e = false /\ is_shared e = false.

Global Instance counts_for_dec m y e : Decision (counts_for m y e).
Proof. unfold counts_for. apply _. Defined.

(** The personal expenses that count for year [y]. *)
Definition counts_for_year (y : Z) (e : expense) : Prop :=
  year e = y /\ is_deleted e = false /\ is_shared e = false.

Global Instance counts_for_year_dec y e : Decision (counts_for_year y e).
Proof. unfold counts_for_year. apply _. Defined.

(** Every month from 1 to [K] has its display name as a key of [b]. *)
Definition keyed (K : Z) (b : gmap string Qc) : Prop :=
  forall m s, (1 <= m <= K)%Z -> month_name m = Some s -> is_Some (b !! s).

(** [K]: the number of months a year has had so far. *)
Definition months_so_far (now : clock) (y : Z) : Z :=
  if decide (y = current_year now) then current_month now else 12.

(** The record of the worked example: A paid 90 for B and C, 30 each. *)
Definition example_record : shared_expense ascii :=
  {| title := chars "Dinner";
     total_amount := Q2Qc 90;
     paid_by := chars "A";
     participants := [chars "B"; chars "C"];
     per_person_amount := Q2Qc 30;
     shared_date := chars "2024-01-05";
     is_settled := false;
     settled_at := None |}.

(** A small collection of personal expenses: two that count for January
    2024, one for February, one deleted and one shared. *)
Definition example_expenses : list expense :=
  [ {| amount := Q2Qc (25 # 2); category := "Food"; description := "market";
       payment_mode := "cash"; date := "2024-01-05"; month := 1; year := 2024;
       is_shared := false; is_deleted := false |};
    {| amount := Q2Qc 800; category := "Rent"; description := "flat";
       payment_mode := "bank"; date := "2024-01-01"; month := 1; year := 2024;
       is_shared := false; is_deleted := false |};
    {| amount := Q2Qc 3; category := "Transport"; description := "bus";
       payment_mode := "card"; date := "2024-02-10"; month := 2; year := 2024;
       is_shared := false; is_deleted := false |};
    {| amount := Q2Qc 40; category := "Food"; description := "refunded";
       payment_mode := "card"; date := "2024-01-20"; month := 1; year := 2024;
       is_shared := false; is_deleted := true |};
    {| amount := Q2Qc 60; category := "Food"; description := "group dinner";
       payment_mode := "card"; date := "2024-01-21"; month := 1; year := 2024;
       is_shared := true; is_deleted := false |} ]%string.

Definition example_budgets : list budget :=
  [ {| budget_category := "Food"; monthly_limit := Q2Qc 10 |};
    {| budget_category := "Rent"; monthly_limit := Q2Qc 800 |};
    {| budget_category := "Travel"; monthly_limit := Q2Qc 0 |} ]%string.

(** The clock in March 2024. *)
Definition example_clock : clock :=
  {| current_year := 2024; current_month := 3 |}.

(** ** Further vocabulary: the ledger *)

Section LedgerVocabulary.

Context {char : Type} `{Countable char}.

(** Everybody a sequence of records names, as payer or as participant. *)
Fixpoint named_by (l : list (shared_expense char)) : gset (list char) :=
  match l with
  | [] => ∅
  | exp :: l' =>
      {[paid_by exp]} ∪ list_to_set (participants exp) ∪ named_by l'
  end.

End LedgerVocabulary.

(** The record stored for a dinner of 90 paid by A for A, B and C. *)
Definition example_created : shared_expense ascii :=
  add_shared_expense ascii_comma ascii_isspace
    (chars "Dinner") (chars "A") (chars "B,C") (chars "2024-01-05") (Q2Qc 90).

(** ** Further vocabulary: the aggregation engine *)

(** An optional month or year argument lets a stored value pass when the
    argument is not given, is 0, or equals the value. *)
Definition passes (arg : option Z) (v : Z) : Prop :=
  match arg with
  | Some a => a = 0%Z \/ v = a
  | None => True
  end.

Global Instance passes_dec arg v : Decision (passes arg v).
Proof. destruct arg; simpl; apply _. Defined.

(** The expenses [get_category_totals] selects for its two arguments. *)
Definition selected_by (month_arg year_arg : option Z) (e : expense) : Prop :=
  is_deleted e = false /\ is_shared e = false
  /\ passes month_arg (month e) /\ passes year_arg (year e).

Global Instance selected_by_dec month_arg year_arg e :
  Decision (selected_by month_arg year_arg e).
Proof. unfold selected_by. apply _. Defined.

(** ** Dictionaries in insertion order

    [chart_data] and [max] read a dictionary in the order its keys were
    first inserted.  Here a dictionary is the list of its items in that
    order, and the two helpers that feed charts and maxima are embedded a
    second time over it. *)

(** [d.get(k)] *)
Fixpoint od_get (d : list (string * Qc)) (k : string) : option Qc :=
  match d with
  | [] => None
  | (k', v) :: d' => if decide (k' = k) then Some v else od_get d' k
  end.

(** [d[k] = v]: an existing key keeps its place, a new key goes last. *)
Fixpoint od_set (d : list (string * Qc)) (k : string) (v : Qc)
    : list (string * Qc) :=
  match d with
  | [] => [(k, v)]
  | (k', v') :: d' =>
      if decide (k' = k) then (k', v) :: d' else (k', v') :: od_set d' k v
  end.

(** [max(x :: xs, key=key)]: a later item replaces the best one so far
    only when its key is strictly greater. *)
Definition py_max {A : Type} (key : A -> Qc) (x : A) (xs : list A) : A :=
  fold_left (fun best y => if decide (key best < key y)%Qc then y else best) xs x.

Section OrderedAggregation.

Variable expenses_collection : list expense.
Variable now_year_month : clock.

Local Open Scope Z_scope.

(** [get_category_totals], items in insertion order. *)
Definition category_totals_items (month year : option Z) : list (string * Qc) :=
  let query := {| q_month := if_truthy month; q_year := if_truthy year;
                  q_is_deleted := Some false; q_is_shared := Some false |} in
  fold_left
    (fun totals exp =>
       od_set totals (category exp)
         (default (Q2Qc 0) (od_get totals (category exp)) + amount exp)%Qc)
    (find query expenses_collection) [].

Fixpoint zero_filled_items (ms : list Z) (breakdown : list (string * Qc))
    : option (list (string * Qc)) :=
  match ms with
  | [] => Some breakdown
  | m :: ms' =>
      name ← month_name m;
      zero_filled_items ms' (od_set breakdown name (Q2Qc 0))
  end.

Definition breakdown_step_items (months_to_show : Z)
    (breakdown : list (string * Qc)) (exp : expense)
    : option (list (string * Qc)) :=
  if month exp <=? months_to_show then
    name ← month_name (month exp);
    old ← od_get breakdown name;
    Some (od_set breakdown name (old + amount exp)%Qc)
  else Some breakdown.

Fixpoint breakdown_loop_items (months_to_show : Z) (exps : list expense)
    (breakdown : list (string * Qc)) : option (list (string * Qc)) :=
  match exps with
  | [] => Some breakdown
  | exp :: exps' =>
      b ← breakdown_step_items months_to_show breakdown exp;
      breakdown_loop_items months_to_show exps' b
  end.

(** [get_monthly_breakdown], items in insertion order. *)
Definition monthly_breakdown_items (year : Z) : option (list (string * Qc)) :=
  let months_to_show :=
    if decide (year = current_year now_year_month)
    then current_month now_year_month else 12 in
  breakdown ← zero_filled_items (range1 months_to_show) [];
  breakdown_loop_items months_to_show
    (find {| q_month := None; q_year := Some year;
             q_is_deleted := Some false; q_is_shared := Some false |}
          expenses_collection)
    breakdown.

(** The key [max(data, key=data.get)] picks and its value, [(None, 0)]
    for an empty dictionary.  The key picked is a key of [data], so
    [data[m]] finds it. *)
Definition highest_of (data : list (string * Qc)) : option string * Qc :=
  match map fst data with
  | [] => (None, Q2Qc 0)
  | k :: ks =>
      let m := py_max (fun k => default (Q2Qc 0) (od_get data k)) k ks in
      (Some m, default (Q2Qc 0) (od_get data m))
  end.

Definition highest_spending_month (year : Z) : option (option string * Qc) :=
  data ← monthly_breakdown_items year;
  Some (highest_of data).

Definition highest_spending_category (year : Z) : option string * Qc :=
  highest_of (category_totals_items None (Some year)).

End OrderedAggregation.

(** What [chart_data] returns. *)
Record chart := Chart { labels : list string; data : list Qc }.

Definition chart_data (data_dict : list (string * Qc)) : chart :=
  {| labels := map fst data_dict; data := map snd data_dict |}.

(** The keys of a sequence in the order in which they first appear. *)
Definition first_seen (ks : list string) : list string :=
  fold_left (fun seen k => if decide (k ∈ seen) then seen else seen ++ [k]) ks [].

(** ** The year selector *)

(** [expenses_collection.distinct("year")]: every stored year once; the
    driver promises no order. *)
Definition distinct_years (expenses_collection : list expense) : list Z :=
  remove_dups (map year expenses_collection).

(** [sorted(expenses_collection.distinct("year"))] *)
Definition available_years (expenses_collection : list expense) : list Z :=
  merge_sort Z.le (distinct_years expenses_collection).

(** ** Documents with their [_id]

    The routes that change a stored document address it by its [_id].
    For them a collection is the list of its documents, each paired with
    its id, in the order the driver iterates them; [docs] forgets the ids
    and gives the collection as the helpers above read it. *)

Section Documents.

Context {oid : Type} `{EqDecision oid}.

Definition docs {D : Type} (coll : list (oid * D)) : list D := map snd coll.

(** [coll.find_one({"_id": id})] *)
Fixpoint find_one {D : Type} (id : oid) (coll : list (oid * D)) : option D :=
  match coll with
  | [] => None
  | (i, d) :: rest => if decide (i = id) then Some d else find_one id rest
  end.

(** [coll.update_one({"_id": id}, {"$set": ...})]: the first document
    with that id is changed, a collection without it stays as it is. *)
Fixpoint update_one {D : Type} (id : oid) (set : D -> D) (coll : list (oid * D))
    : list (oid * D) :=
  match coll with
  | [] => []
  | (i, d) :: rest =>
      if decide (i = id) then (i, set d) :: rest
      else (i, d) :: update_one id set rest
  end.

(** [coll.insert_one(doc)], [new_id] being the id the driver gives it. *)
Definition insert_one {D : Type} (new_id : oid) (doc : D) (coll : list (oid * D))
    : list (oid * D) :=
  coll ++ [(new_id, doc)].

(** [{"$set": {"is_deleted": True}}] *)
Definition set_is_deleted (e : expense) : expense :=
  {| amount := amount e; category := category e; description := description e;
     payment_mode := payment_mode e; date := date e; month := month e;
     year := year e; is_shared := is_shared e; is_deleted := true |}.

(** The route [/delete/<expense_id>], [expense_id] already an [ObjectId]. *)
Definition delete_expense (expenses_collection : list (oid * expense))
    (expense_id : oid) : list (oid * expense) :=
  update_one expense_id set_is_deleted expenses_collection.

(** The POST branch of [add_expense].  [form_amount] is the value of
    [float(request.form["amount"])] and [date_obj_month], [date_obj_year]
    are the month and year of [parse_date(request.form["date"])]; when a
    conversion raises, the request is aborted before anything is stored. *)
Definition add_expense (expenses_collection : list (oid * expense))
    (new_id : oid) (form_amount : Qc)
    (form_category form_description form_payment_mode form_date : string)
    (date_obj_month date_obj_year : Z) : list (oid * expense) :=
  insert_one new_id
    {| amount := form_amount; category := form_category;
       description := form_description; payment_mode := form_payment_mode;
       date := form_date; month := date_obj_month; year := date_obj_year;
       is_shared := false; is_deleted := false |}
    expenses_collection.

Context {char : Type}.

(** [{"$set": {"is_settled": True, "settled_at": today}}] *)
Definition set_is_settled (today : list char) (exp : shared_expense char)
    : shared_expense char :=
  {| title := title exp; total_amount := total_amount exp;
     paid_by := paid_by exp; participants := participants exp;
     per_person_amount := per_person_amount exp;
     shared_date := shared_date exp;
     is_settled := true; settled_at := Some today |}.

(** The route [/shared/settle/<expense_id>]; [today] is
    [datetime.now().strftime("%Y-%m-%d")]. *)
Definition settle_shared_expense
    (shared_collection : list (oid * shared_expense char))
    (expense_id : oid) (today : list char)
    : list (oid * shared_expense char) :=
  update_one expense_id (set_is_settled today) shared_collection.

End Documents.

(** Personal expenses with ids, for the examples. *)
Definition example_documents : list (nat * expense) :=
  zip (seq 1 (length example_expenses)) example_expenses.

(** Shared expenses with ids, for the examples. *)
Definition example_shared_documents : list (nat * shared_expense ascii) :=
  [(1%nat, example_record); (2%nat, example_created)].

(** ** The dashboard route *)

(** The keyword arguments handed to [render_template] by [dashboard]. *)
Record dashboard_context := DashboardContext {
  ctx_year : Z;
  ctx_month_name : string;
  ctx_monthly_total : option Qc;
  ctx_yearly_total : Qc;
  ctx_monthly_breakdown : list (string * Qc);
  ctx_monthly_chart : chart;
  ctx_category_chart : chart;
  ctx_highest_month : option string;
  ctx_highest_month_amount : Qc;
  ctx_top_category : option string;
  ctx_top_category_amount : Qc;
  ctx_avg_monthly_spend : Qc;
  ctx_available_years : list Z;
  ctx_budget_alerts : list alert
}.

(** The truth value of [month_num]: false for [None] and for 0. *)
Definition month_num_given (month_num : option Z) : option Z :=
  match month_num with
  | Some m => if decide (m = 0%Z) then None else Some m
  | None => None
  end.

(** [dashboard()].  [year_arg] is [request.args.get("year", type=int)]:
    [None] when the parameter is missing or is not an integer, in which
    case the current year is taken.  [None] as a result is an exception
    raised by [month_name] or [get_monthly_breakdown]. *)
Definition dashboard (expenses_collection : list expense)
    (budgets_collection : list budget) (now_year_month : clock)
    (year_arg : option Z) : option dashboard_context :=
  let current_year := current_year now_year_month in
  let current_month := current_month now_year_month in
  let year := default current_year year_arg in
  let month_num :=
    if decide (year = current_year) then Some current_month else None in
  month_label ←
    match month_num_given month_num with
    | Some m => month_name m
    | None => Some "Full Year"%string
    end;
  let monthly_total :=
    match month_num_given month_num with
    | Some m => Some (get_monthly_total expenses_collection m year)
    | None => None
    end in
  let yearly_total := get_yearly_total expenses_collection year in
  monthly_data ← monthly_breakdown_items expenses_collection now_year_month year;
  high ← highest_spending_month expenses_collection now_year_month year;
  let top := highest_spending_category expenses_collection year in
  let avg_spend := average_monthly_spend expenses_collection now_year_month year in
  Some {| ctx_year := year;
          ctx_month_name := month_label;
          ctx_monthly_total := monthly_total;
          ctx_yearly_total := yearly_total;
          ctx_monthly_breakdown := monthly_data;
          ctx_monthly_chart := chart_data monthly_data;
          ctx_category_chart :=
            chart_data (category_totals_items expenses_collection None (Some year));
          ctx_highest_month := fst high;
          ctx_highest_month_amount := snd high;
          ctx_top_category := fst top;
          ctx_top_category_amount := snd top;
          ctx_avg_monthly_spend := avg_spend;
          ctx_available_years := available_years expenses_collection;
          ctx_budget_alerts :=
            match month_num_given month_num with
            | Some m => budget_alerts expenses_collection budgets_collection m year
            | None => []
            end |}.

(** ** The expense list route *)

(** The query parameters of [/expenses]: [None] for a parameter that is
    missing (or, for the two numbers, not an integer). *)
Record view_args := ViewArgs {
  arg_sort : option string;
  arg_category : option string;
  arg_year : option Z;
  arg_month : option Z;
  arg_date : option string
}.

(** A query document with the two text fields [view_expenses] may add. *)
Record view_query := ViewQuery {
  vq_base : query;
  vq_category : option string;
  vq_date : option string
}.

Definition view_matches (q : view_query) (e : expense) : bool :=
  matches (vq_base q) e
  && field_ok (vq_category q) (category e)
  && field_ok (vq_date q) (date e).

(** [if category:] and [if date:]: [None] and the empty string add no
    condition. *)
Definition if_nonempty (arg : option string) : option string :=
  match arg with
  | Some s => if decide (s = ""%string) then None else Some s
  | None => None
  end.

(** The stored dates compared as the strings they are. *)
Definition date_le (a b : expense) : Prop :=
  String.leb (date a) (date b) = true.

Global Instance date_le_dec a b : Decision (date_le a b).
Proof. unfold date_le. apply _. Defined.

(** [cursor.sort("date", order)]: ascending for 1, descending for -1. *)
Definition sort_by_date (order : Z) (l : list expense) : list expense :=
  if decide (order = 1%Z)
  then merge_sort date_le l
  else merge_sort (flip date_le) l.

(** What [view_expenses] hands to [render_template]. *)
Record expenses_page := ExpensesPage {
  page_expenses : list expense;
  page_categories : list string;
  page_years : list Z;
  page_selected : view_args
}.

Definition view_expenses (expenses_collection : list expense) (args : view_args)
    : expenses_page :=
  let sort := default "newest"%string (arg_sort args) in
  let query :=
    {| vq_base := {| q_month := if_truthy (arg_month args);
                     q_year := if_truthy (arg_year args);
                     q_is_deleted := Some false; q_is_shared := Some false |};
       vq_category := if_nonempty (arg_category args);
       vq_date := if_nonempty (arg_date args) |} in
  let order := if decide (sort = "newest"%string) then (-1)%Z else 1%Z in
  let expenses :=
    sort_by_date order
      (filter (fun e => view_matches query e = true) expenses_collection) in
  {| page_expenses := expenses;
     page_categories := remove_dups (map category expenses_collection);
     page_years := available_years expenses_collection;
     page_selected :=
       {| arg_sort := Some sort; arg_category := arg_category args;
          arg_year := arg_year args; arg_month := arg_month args;
          arg_date := arg_date args |} |}.

(** A text argument lets a stored text pass when the argument is not
    given, is empty, or equals the text. *)
Definition passes_text (arg : option string) (v : string) : Prop :=
  match arg with
  | Some a => a = ""%string \/ v = a
  | None => True
  end.

Global Instance passes_text_dec arg v : Decision (passes_text arg v).
Proof. destruct arg; simpl; apply _. Defined.

(** The expenses the list shows for its arguments. *)
Definition shown_by (args : view_args) (e : expense) : Prop :=
  selected_by (arg_month args) (arg_year args) e
  /\ passes_text (arg_category args) (category e)
  /\ passes_text (arg_date args) (date e).

Global Instance shown_by_dec args e : Decision (shown_by args e).
Proof. unfold shown_by. apply _. Defined.

(** * Binary floating point

    The code stores every amount as a Python [float], an IEEE 754
    binary64 number, and adds, subtracts, divides and compares amounts
    with the float operations, each of which rounds its exact result to
    the nearest float.  This module embeds the arithmetic helpers, the
    intake of shared expenses and the ledger a second time over the
    primitive binary64 floats, for the statements that depend on how
    the float operations round.

    The integer 0 that [sum], [dict.get], [setdefault] and the guard of
    [average_monthly_spend] start from or return is the float [0] here:
    [0 + x], [0 - x] and [0 > x] give the same float or truth value for
    the integer and for the float zero. *)

Module Binary64.

Import PrimFloat.

Local Open Scope float_scope.

(** [float(n)] for an integer [n], as [x / n] converts its divisor. *)
Definition of_int (n : Z) : float :=
  FloatOps.SF2Prim
    (SpecFloat.binary_normalize FloatOps.prec FloatOps.emax n 0 false).

(** [sum(xs)]: the accumulator starts at 0 and the items are added from
    left to right, every addition rounding to the nearest float.  This
    is how CPython adds floats up to version 3.11; from version 3.12 on
    [sum] also carries a correction term for the rounding errors.  The
    additions the code writes out itself ([+], [+=], [-=]) are float
    additions in every version. *)
Definition py_sum (xs : list float) : float :=
  fold_left add xs 0.

(** The exact value [m * 2 ^ e] of the magnitude of a finite float. *)
Definition magnitude (m : positive) (e : Z) : Q :=
  match e with
  | Z0 => inject_Z (Z.pos m)
  | Zpos p => inject_Z (Z.pos m * 2 ^ Z.pos p)
  | Zneg p => Z.pos m # 2 ^ p
  end.

(** The exact value of a float, 0 for an infinity and for a NaN. *)
Definition exact (x : float) : Q :=
  match FloatOps.Prim2SF x with
  | SpecFloat.S754_finite s m e =>
      if s then (- magnitude m e)%Q else magnitude m e
  | _ => 0%Q
  end.

(** The float nearest to [n / 100], with the sign [s]. *)
Definition of_hundredths (s : bool) (n : Z) : float :=
  match n with
  | Zpos p =>
      FloatOps.SF2Prim
        (SpecFloat.SFdiv FloatOps.prec FloatOps.emax
           (SpecFloat.S754_finite s p 0) (SpecFloat.S754_finite false 100 0))
  | _ => if s then neg_zero else zero
  end.

(** [round(x, 2)] for a float [x]: the exact value of [x] is rounded to
    a whole number of hundredths, ties to the even one, and the float
    nearest to that decimal is returned; infinities, NaN and the zeros
    are returned as they are. *)
Definition py_round2 (x : float) : float :=
  match FloatOps.Prim2SF x with
  | SpecFloat.S754_finite s m e =>
      of_hundredths s (round_half_even (magnitude m e * inject_Z 100))
  | _ => x
  end.

(** [r] is [x] rounded to two decimal places: for a finite [x] of sign
    [s], [r] is the float nearest to [n / 100] with sign [s], for a
    whole number [n] of hundredths that is at most half a hundredth away
    from the magnitude of [x]; an infinity, a NaN or a zero is left as
    it is. *)
Definition rounded_to_cents (x r : float) : Prop :=
  match FloatOps.Prim2SF x with
  | SpecFloat.S754_finite s m e =>
      exists n : Z,
        r = of_hundredths s n
        /\ (inject_Z n - (1 # 2) <= magnitude m e * inject_Z 100)%Q
        /\ (magnitude m e * inject_Z 100 <= inject_Z n + (1 # 2))%Q
  | _ => r = x
  end.

(** ** Personal expenses and budgets *)

(** A document of [expenses_collection]; [amount] is what
    [float(request.form["amount"])] returned. *)
Record expense := Expense {
  amount : float;
  category : string;
  description : string;
  payment_mode : string;
  date : string;
  month : Z;
  year : Z;
  is_shared : bool;
  is_deleted : bool
}.

(** A document of [budgets_collection]; the limit is taken to be a
    float, or an integer that a float holds exactly. *)
Record budget := Budget {
  budget_category : string;
  monthly_limit : float
}.

(** The dictionary appended by [budget_alerts]. *)
Record alert := Alert {
  alert_category : string;
  limit : float;
  spent : float
}.

Definition matches (q : query) (e : expense) : bool :=
  field_ok (q_month q) (month e) && field_ok (q_year q) (year e)
  && field_ok (q_is_deleted q) (is_deleted e)
  && field_ok (q_is_shared q) (is_shared e).

(** [expenses_collection.find(q)] *)
Definition find (q : query) (expenses_collection : list expense) : list expense :=
  filter (fun e => matches q e = true) expenses_collection.

Section Aggregation.

Variable expenses_collection : list expense.
Variable budgets_collection : list budget.
Variable now_year_month : clock.

Definition get_monthly_total (month year : Z) : float :=
  py_sum (map amount
    (find {| q_month := Some month; q_year := Some year;
             q_is_deleted := Some false; q_is_shared := Some false |}
          expenses_collection)).

Definition get_yearly_total (year : Z) : float :=
  py_sum (map amount
    (find {| q_month := None; q_year := Some year;
             q_is_deleted := Some false; q_is_shared := Some false |}
          expenses_collection)).

Definition get_category_totals (month year : option Z) : gmap string float :=
  let query := {| q_month := if_truthy month; q_year := if_truthy year;
                  q_is_deleted := Some false; q_is_shared := Some false |} in
  fold_left
    (fun totals exp =>
       <[category exp := default 0 (totals !! category exp) + amount exp]> totals)
    (find query expenses_collection) ∅.

Definition average_monthly_spend (year : Z) : float :=
  let months :=
    if decide (year = current_year now_year_month)
    then current_month now_year_month else 12%Z in
  if decide (months = 0%Z) then 0
  else py_round2 (get_yearly_total year / of_int months).

(** [spent > b["monthly_limit"]] is the float comparison
    [monthly_limit <? spent]. *)
Definition budget_alerts (month year : Z) : list alert :=
  let totals := get_category_totals (Some month) (Some year) in
  fold_left
    (fun alerts b =>
       let spent := default 0 (totals !! budget_category b) in
       if monthly_limit b <? spent
       then alerts ++ [ {| alert_category := budget_category b;
                           limit := monthly_limit b;
                           spent := spent |} ]
       else alerts)
    budgets_collection [].

End Aggregation.

(** ** Shared expenses: records, intake and ledger *)

Section SharedRecords.

Context {char : Type} `{EqDecision char}.

(** A document of [shared_collection]. *)
Record shared_expense := SharedExpense {
  title : list char;
  total_amount : float;
  paid_by : list char;
  participants : list (list char);
  per_person_amount : float;
  shared_date : list char;
  is_settled : bool;
  settled_at : option (list char)
}.

Variable comma : char.
Variable isspace : char -> bool.

(** The POST branch of [add_shared_expense]: the document handed to
    [insert_one].  [total] is the value of
    [float(request.form["total_amount"])]. *)
Definition add_shared_expense
    (form_title form_paid_by form_participants form_date : list char)
    (total : float) : shared_expense :=
  let paid_by := form_paid_by in
  let others := others_of comma isspace paid_by form_participants in
  let people := [paid_by] ++ others in
  let per_person := py_round2 (total / of_int (Z.of_nat (length people))) in
  {| title := form_title;
     total_amount := total;
     paid_by := paid_by;
     participants := people;
     per_person_amount := per_person;
     shared_date := form_date;
     is_settled := false;
     settled_at := None |}.

End SharedRecords.

Arguments shared_expense : clear implicits.

Section Ledger.

Context {char : Type} `{Countable char}.

(** [d.setdefault(k, v)] *)
Definition setdefault (k : list char) (v : float) (d : gmap (list char) float)
    : gmap (list char) float :=
  match d !! k with
  | Some _ => d
  | None => <[k := v]> d
  end.

(** The body of the loop of [calculate_net_balances]. *)
Definition net_step (balances : gmap (list char) float) (exp : shared_expense char)
    : gmap (list char) float :=
  let paid_by := paid_by exp in
  let participants := participants exp in
  let per_person := per_person_amount exp in
  let balances := setdefault paid_by 0 balances in
  let balances := alter (fun b => b + total_amount exp) paid_by balances in
  fold_left
    (fun balances p =>
       alter (fun b => b - per_person) p (setdefault p 0 balances))
    participants balances.

(** [shared_collection.find({"is_settled": False})] *)
Definition find_unsettled (shared_collection : list (shared_expense char))
    : list (shared_expense char) :=
  filter (fun e => is_settled e = false) shared_collection.

Definition calculate_net_balances (shared_collection : list (shared_expense char))
    : gmap (list char) float :=
  fold_left net_step (find_unsettled shared_collection) ∅.

(** *** Vocabulary of the statements about the ledger *)

(** How often [k] is listed in [ps]. *)
Definition listings (k : list char) (ps : list (list char)) : nat :=
  length (filter (fun p => p = k) ps).

(** [b] after [n] times [b -= per]. *)
Definition debited (n : nat) (per b : float) : float :=
  Nat.iter n (fun b => b - per) b.

(** What one record makes of the entry of [k], [old] being the entry
    before ([None]: no entry): the payer is credited first, then every
    listing of [k] among the participants is debited; a participant the
    record does not name keeps the entry, or keeps having none. *)
Definition entry_after (exp : shared_expense char) (k : list char)
    (old : option float) : option float :=
  let credited :=
    if decide (k = paid_by exp)
    then Some (default 0 old + total_amount exp) else old in
  match listings k (participants exp) with
  | O => credited
  | n => Some (debited n (per_person_amount exp) (default 0 credited))
  end.

End Ledger.

(** ** Vocabulary of the statements about the aggregation *)

(** The personal expenses that count for month [m] of year [y]. *)
Definition counts_for (m y : Z) (e : expense) : Prop :=
  month e = m /\ year e = y /\ is_deleted e = false /\ is_shared e = false.

Global Instance counts_for_dec m y e : Decision (counts_for m y e).
Proof. unfold counts_for. apply _. Defined.

(** The personal expenses that count for year [y]. *)
Definition counts_for_year (y : Z) (e : expense) : Prop :=
  year e = y /\ is_deleted e = false /\ is_shared e = false.

Global Instance counts_for_year_dec y e : Decision (counts_for_year y e).
Proof. unfold counts_for_year. apply _. Defined.



(** ** Examples *)

(** A personal expense of January 2024 that counts. *)
Definition spend (c : string) (a : float) : expense :=
  {| amount := a; category := c; description := "snack"; payment_mode := "cash";
     date := "2024-01-05"; month := 1; year := 2024;
     is_shared := false; is_deleted := false |}.

(** Three expenses of 0.1, 0.2 and 0.3. *)
Definition example_tenths : list expense :=
  [spend "Food" 0.1; spend "Food" 0.2; spend "Food" 0.3].


Definition example_budgets : list budget :=
  [ {| budget_category := "Food"; monthly_limit := 3.32 |};
    {| budget_category := "Rent"; monthly_limit := 800 |};
    {| budget_category := "Travel"; monthly_limit := 0 |} ].

(** One expense of 0.06 in 2023. *)
Definition example_2023 : list expense :=
  [ {| amount := 0.06; category := "Food"; description := "snack";
       payment_mode := "cash"; date := "2023-05-05"; month := 5; year := 2023;
       is_shared := false; is_deleted := false |} ].

(** The record the intake stores for [total], paid by A for A and the
    people of [raw]. *)
Definition created (raw : string) (total : float) : shared_expense ascii :=
  add_shared_expense ascii_comma ascii_isspace
    (chars "Dinner") (chars "A") (chars raw) (chars "2024-01-05") total.

End Binary64.

(** Split a disjunction of equations, obtained from [H] by the lemma
    [cases], into one goal per equation. *)
Ltac each_case cases H :=
  apply cases in H;
  repeat (destruct H as [H|H]; [subst|]); [..|subst].

(** * Properties *)

(** ** Arithmetic of the builtins *)

Lemma Qc_eq_via_Q (x y : Qc) : (this x == this y)%Q -> x = y.
Proof. apply Qc_is_canon. Qed.

Lemma fold_left_Qcplus (xs : list Qc) (a : Qc) :
  fold_left Qcplus xs a = (a + py_sum xs)%Qc.
Proof.
  unfold py_sum. revert a.
  induction xs as [|x xs IH]; intros a; simpl.
  - ring.
  - rewrite (IH (a + x)%Qc), (IH (Q2Qc 0 + x)%Qc). ring.
Qed.

Lemma py_sum_nil : py_sum [] = Q2Qc 0.
Proof. reflexivity. Qed.

Lemma py_sum_cons (x : Qc) (xs : list Qc) : py_sum (x :: xs) = (x + py_sum xs)%Qc.
Proof.
  unfold py_sum at 1. simpl. rewrite fold_left_Qcplus. ring.
Qed.

Lemma py_sum_app (xs ys : list Qc) : py_sum (xs ++ ys) = (py_sum xs + py_sum ys)%Qc.
Proof.
  induction xs as [|x xs IH]; simpl.
  - rewrite py_sum_nil. ring.
  - rewrite !py_sum_cons, IH. ring.
Qed.

(** ** Intake of a shared expense *)

Section IntakeFacts.

Context {char : Type} `{EqDecision char}.
Variable comma : char.
Variable isspace : char -> bool.

(** The comprehension keeps, in order, the stripped fields that are
    neither empty nor the payer. *)
Lemma others_of_filter (payer raw : list char) :
  others_of comma isspace payer raw
  = filter (fun p => p <> [] /\ p <> payer)
           (map (strip isspace) (split comma raw)).
Proof.
  unfold others_of.
  induction (split comma raw) as [|w ws IH]; simpl; [reflexivity|].
  rewrite IH, filter_cons.
  destruct (strip isspace w) as [|c w'] eqn:Hw; simpl.
  - reflexivity.
  - destruct (bool_decide_reflect (c :: w' <> payer)) as [Hne|Heq]; simpl.
    + rewrite decide_True by (split; [discriminate|exact Hne]). reflexivity.
    + rewrite decide_False by (intros [_ ?]; contradiction). reflexivity.
Qed.

Lemma others_of_elem (payer raw p : list char) :
  p ∈ others_of comma isspace payer raw
  <-> (exists w, w ∈ split comma raw /\ p = strip isspace w)
      /\ p <> [] /\ p <> payer.
Proof.
  rewrite others_of_filter, list_elem_of_filter, list_elem_of_fmap.
  split.
  - intros [[Hne Hp] [w [-> Hw]]]. eauto.
  - intros [[w [Hw ->]] [Hne Hp]]. eauto.
Qed.

End IntakeFacts.

(** C1, as the code has it.  The stored [participants] sequence is
    [paid_by] followed by the fields of the comma-separated input, each
    stripped of surrounding white space, that are neither empty nor equal
    to [paid_by], in input order and with repetitions kept.  So [paid_by]
    is stored among the participants, exactly once, as the first entry. *)
Theorem add_shared_expense_participants
    {char : Type} `{EqDecision char} (comma : char) (isspace : char -> bool)
    (form_title payer raw form_date : list char) (total : Qc) :
  let exp := add_shared_expense comma isspace form_title payer raw form_date total in
  let others :=
    filter (fun p => p <> [] /\ p <> payer)
           (map (strip isspace) (split comma raw)) in
  paid_by exp = payer
  /\ participants exp = payer :: others
  /\ (payer ∉ others)
  /\ (forall p, p ∈ others <->
        (exists w, w ∈ split comma raw /\ p = strip isspace w)
        /\ p <> [] /\ p <> payer).
Proof.
  intros exp others. subst exp others. simpl.
  rewrite <- others_of_filter.
  split; [reflexivity|]. split; [reflexivity|]. split.
  - intros Hin. apply others_of_elem in Hin. tauto.
  - intros p. apply others_of_elem.
Qed.

(** C1 fails as stated: for payer "A" and the input "B,C,B" the stored
    sequence is A, B, C, B.  It contains the payer and keeps the repeated
    entry. *)
Lemma stored_participants_keep_payer_and_repeats :
  let exp := add_shared_expense ascii_comma ascii_isspace
               (chars "Dinner") (chars "A") (chars "B,C,B")
               (chars "2024-01-05") (Q2Qc 90) in
  participants exp = [chars "A"; chars "B"; chars "C"; chars "B"]
  /\ paid_by exp ∈ participants exp
  /\ ~ NoDup (participants exp).
Proof.
  split; [reflexivity|]. split.
  - vm_compute. apply list_elem_of_here.
  - vm_compute. intros Hnd.
    apply NoDup_cons_1_2 in Hnd. apply NoDup_cons_1_1 in Hnd.
    apply Hnd. apply list_elem_of_further, list_elem_of_here.
Qed.

(** ** Month names *)

Lemma py_index_None {A : Type} (l : list A) (i : Z) :
  py_index l i = None
  <-> (i < - Z.of_nat (length l) \/ Z.of_nat (length l) <= i)%Z.
Proof.
  unfold py_index.
  destruct (0 <=? i)%Z eqn:H0; destruct (i <? Z.of_nat (length l))%Z eqn:H1;
    simpl.
  - rewrite lookup_ge_None. lia.
  - destruct (- Z.of_nat (length l) <=? i)%Z eqn:H2;
      destruct (i <? 0)%Z eqn:H3; simpl; try (split; [lia|reflexivity]).
    lia.
  - destruct (- Z.of_nat (length l) <=? i)%Z eqn:H2;
      destruct (i <? 0)%Z eqn:H3; simpl;
      rewrite ?lookup_ge_None; try (split; [lia|reflexivity]); lia.
  - lia.
Qed.

Lemma py_index_wrap {A : Type} (l : list A) (i : Z) :
  (- Z.of_nat (length l) <= i < 0)%Z ->
  py_index l i = py_index l (Z.of_nat (length l) + i).
Proof.
  intros Hi. unfold py_index.
  replace (0 <=? i)%Z with false by lia.
  replace (- Z.of_nat (length l) <=? i)%Z with true by lia.
  replace (i <? 0)%Z with true by lia.
  replace (0 <=? Z.of_nat (length l) + i)%Z with true by lia.
  replace (Z.of_nat (length l) + i <? Z.of_nat (length l))%Z with true by lia.
  reflexivity.
Qed.

Lemma month_cases (n : Z) :
  (1 <= n <= 12)%Z ->
  n = 1%Z \/ n = 2%Z \/ n = 3%Z \/ n = 4%Z \/ n = 5%Z \/ n = 6%Z \/ n = 7%Z
  \/ n = 8%Z \/ n = 9%Z \/ n = 10%Z \/ n = 11%Z \/ n = 12%Z.
Proof. lia. Qed.

Lemma month_name_is_Some (n : Z) :
  (1 <= n <= 12)%Z -> exists s, month_name n = Some s /\ s <> ""%string.
Proof.
  intros Hn. each_case month_cases Hn; eexists; (split; [reflexivity|discriminate]).
Qed.

Lemma month_name_inj (n1 n2 : Z) (s : string) :
  (1 <= n1 <= 12)%Z -> (1 <= n2 <= 12)%Z ->
  month_name n1 = Some s -> month_name n2 = Some s -> n1 = n2.
Proof.
  intros H1 H2 E1 E2. rewrite <- E2 in E1. clear E2.
  each_case month_cases H1; each_case month_cases H2; first [reflexivity | discriminate E1].
Qed.

(** C5, as the code has it.  [month_name] returns the English month name
    for 1 to 12 and raises exactly when the number is 13 or more, or -14
    or less.  Zero gives the empty string, and a number from -13 to -1
    gives what the number 13 higher gives (so -1 is December and -13 the
    empty string). *)
Theorem month_name_domain :
  map month_name (range1 12)
  = map Some ["January"; "February"; "March"; "April"; "May"; "June"; "July";
              "August"; "September"; "October"; "November"; "December"]%string
  /\ month_name 0 = Some ""%string
  /\ (forall n : Z, month_name n = None <-> (n <= -14 \/ 13 <= n)%Z)
  /\ (forall n : Z, (-13 <= n <= -1)%Z -> month_name n = month_name (n + 13)).
Proof.
  split; [reflexivity|]. split; [reflexivity|]. split.
  - intros n. unfold month_name. rewrite py_index_None. simpl. lia.
  - intros n Hn. unfold month_name. rewrite py_index_wrap by (simpl; lia).
    simpl. f_equal. lia.
Qed.

Lemma month_name_domain_witness :
  month_name (-1) = month_name 12 /\ month_name 13 = None.
Proof.
  destruct month_name_domain as (_ & _ & Hnone & Hwrap). split.
  - apply (Hwrap (-1)%Z). lia.
  - apply (Hnone 13%Z). lia.
Defined.

(** C5 fails as stated: no number from -13 to 0 makes [month_name] fail.
    Zero gives the empty string and -1 gives December. *)
Lemma month_name_nonpositive_returns :
  month_name 0 = Some ""%string /\ month_name (-1) = Some "December"%string
  /\ month_name (-13) = Some ""%string.
Proof. repeat split. Qed.

(** ** The settlement ledger *)

Section LedgerFacts.

Context {char : Type} `{Countable char}.

Local Open Scope Qc_scope.

Implicit Types (balances : gmap (list char) Qc) (k p : list char).
Implicit Types (ps : list (list char)) (exp : shared_expense char).

Lemma setdefault_lookup k (v : Qc) balances j :
  setdefault k v balances !! j
  = if decide (j = k) then Some (default v (balances !! k)) else balances !! j.
Proof.
  unfold setdefault.
  destruct (balances !! k) as [x|] eqn:Hk; destruct (decide (j = k)) as [->|Hne];
    simpl; try reflexivity.
  - exact Hk.
  - apply lookup_insert_eq.
  - apply lookup_insert_ne. congruence.
Qed.

Lemma debit_lookup p (per : Qc) balances j :
  alter (fun b => b - per) p (setdefault p (Q2Qc 0) balances) !! j
  = if decide (j = p) then Some (bal balances p - per) else balances !! j.
Proof.
  destruct (decide (j = p)) as [->|Hne].
  - rewrite lookup_alter_eq, setdefault_lookup, decide_True by reflexivity.
    reflexivity.
  - rewrite lookup_alter_ne by congruence.
    rewrite setdefault_lookup, decide_False by exact Hne. reflexivity.
Qed.

Lemma credit_lookup p (total : Qc) balances j :
  alter (fun b => b + total) p (setdefault p (Q2Qc 0) balances) !! j
  = if decide (j = p) then Some (bal balances p + total) else balances !! j.
Proof.
  destruct (decide (j = p)) as [->|Hne].
  - rewrite lookup_alter_eq, setdefault_lookup, decide_True by reflexivity.
    reflexivity.
  - rewrite lookup_alter_ne by congruence.
    rewrite setdefault_lookup, decide_False by exact Hne. reflexivity.
Qed.

Lemma debits_absent k ps (per : Qc) : k ∉ ps -> debits k ps per = Q2Qc 0.
Proof.
  induction ps as [|p ps IH]; simpl; intros Hk; [reflexivity|].
  apply not_elem_of_cons in Hk as [Hne Hk].
  rewrite decide_False by congruence. rewrite IH by exact Hk. ring.
Qed.

Lemma debit_loop_lookup ps (per : Qc) balances j :
  fold_left
    (fun balances p =>
       alter (fun b => b - per) p (setdefault p (Q2Qc 0) balances))
    ps balances !! j
  = if decide (j ∈ ps) then Some (bal balances j - debits j ps per)
    else balances !! j.
Proof.
  revert balances.
  induction ps as [|p ps IH]; intros balances; simpl.
  - reflexivity.
  - rewrite IH. unfold bal at 1. rewrite debit_lookup.
    destruct (decide (j = p)) as [->|Hne].
    + rewrite (decide_True (P := p ∈ p :: ps)) by apply list_elem_of_here.
      rewrite (decide_True (P := p = p)) by reflexivity.
      destruct (decide (p ∈ ps)) as [Hin|Hnin]; simpl; f_equal.
      * ring.
      * rewrite debits_absent by exact Hnin. ring.
    + rewrite (decide_False (P := p = j)) by congruence.
      destruct (decide (j ∈ ps)) as [Hin|Hnin].
      * rewrite decide_True by (apply list_elem_of_further; exact Hin).
        f_equal. unfold bal. ring.
      * rewrite decide_False; [reflexivity|].
        intros Hc. apply elem_of_cons in Hc as [?|?]; contradiction.
Qed.

(** One record: every key it names gets its old balance plus the
    record's contribution, every other key is untouched. *)
Lemma net_step_lookup balances exp k :
  net_step balances exp !! k
  = if decide (k = paid_by exp \/ k ∈ participants exp)
    then Some (bal balances k + contribution exp k)
    else balances !! k.
Proof.
  unfold net_step, contribution.
  rewrite debit_loop_lookup. unfold bal at 1. rewrite credit_lookup.
  destruct (decide (k ∈ participants exp)) as [Hin|Hnin];
    destruct (decide (k = paid_by exp)) as [->|Hne]; simpl.
  - rewrite decide_True by (right; exact Hin). f_equal. unfold bal. ring.
  - rewrite decide_True by (right; exact Hin). f_equal. unfold bal. ring.
  - rewrite decide_True by (left; reflexivity).
    rewrite debits_absent by exact Hnin. f_equal. ring.
  - rewrite decide_False by tauto. reflexivity.
Qed.




Lemma dom_net_step balances exp :
  dom (net_step balances exp)
  = dom balances ∪ {[paid_by exp]} ∪ list_to_set (participants exp).
Proof.
  apply set_eq. intros k.
  rewrite elem_of_dom, net_step_lookup, !elem_of_union, elem_of_singleton,
    elem_of_list_to_set, elem_of_dom.
  destruct (decide (k = paid_by exp \/ k ∈ participants exp)) as [Hk|Hk].
  - split; [tauto|]. intros _. eexists. reflexivity.
  - tauto.
Qed.

End LedgerFacts.

Section LedgerSums.

Context {char : Type} `{Countable char}.

Local Open Scope Qc_scope.

Implicit Types (balances a b : gmap (list char) Qc) (k p : list char).
Implicit Types (ps : list (list char)) (exp : shared_expense char).


Lemma calculate_net_balances_one exp :
  is_settled exp = false ->
  calculate_net_balances [exp] = net_step ∅ exp.
Proof.
  intros Hs. unfold calculate_net_balances, find_unsettled.
  rewrite filter_cons, decide_True by exact Hs. reflexivity.
Qed.

End LedgerSums.

Lemma calculate_net_balances_snoc {char : Type} `{Countable char}
    (l : list (shared_expense char)) (exp : shared_expense char) :
  is_settled exp = false ->
  calculate_net_balances (l ++ [exp]) = net_step (calculate_net_balances l) exp.
Proof.
  intros Hs. unfold calculate_net_balances, find_unsettled.
  rewrite filter_app, fold_left_app, filter_cons, decide_True by exact Hs.
  reflexivity.
Qed.



(** ** The aggregation engine *)

Section AggregationFacts.

Implicit Types (store : list expense) (e : expense) (m y : Z).

Lemma matches_month_year m y e :
  matches {| q_month := Some m; q_year := Some y;
             q_is_deleted := Some false; q_is_shared := Some false |} e = true
  <-> counts_for m y e.
Proof.
  unfold matches, counts_for, field_ok. simpl.
  rewrite !andb_true_iff, !bool_decide_eq_true. tauto.
Qed.

Lemma matches_year y e :
  matches {| q_month := None; q_year := Some y;
             q_is_deleted := Some false; q_is_shared := Some false |} e = true
  <-> counts_for_year y e.
Proof.
  unfold matches, counts_for_year, field_ok. simpl.
  rewrite !andb_true_iff, !bool_decide_eq_true. tauto.
Qed.

Lemma find_month_year m y store :
  find {| q_month := Some m; q_year := Some y;
          q_is_deleted := Some false; q_is_shared := Some false |} store
  = filter (counts_for m y) store.
Proof. apply list_filter_iff. intros e. apply matches_month_year. Qed.

Lemma find_year y store :
  find {| q_month := None; q_year := Some y;
          q_is_deleted := Some false; q_is_shared := Some false |} store
  = filter (counts_for_year y) store.
Proof. apply list_filter_iff. intros e. apply matches_year. Qed.

Lemma get_monthly_total_filter store m y :
  get_monthly_total store m y
  = py_sum (map amount (filter (counts_for m y) store)).
Proof. unfold get_monthly_total. rewrite find_month_year. reflexivity. Qed.

Lemma get_yearly_total_filter store y :
  get_yearly_total store y
  = py_sum (map amount (filter (counts_for_year y) store)).
Proof. unfold get_yearly_total. rewrite find_year. reflexivity. Qed.

End AggregationFacts.

Lemma filter_none {A : Type} (P : A -> Prop) `{forall x, Decision (P x)}
    (l : list A) :
  (forall x, x ∈ l -> ~ P x) -> filter P l = [].
Proof.
  induction l as [|x l IH]; intros Hnone; [reflexivity|].
  rewrite filter_cons, decide_False by (apply Hnone, list_elem_of_here).
  apply IH. intros x' Hx'. apply Hnone, list_elem_of_further, Hx'.
Qed.

(** ** The monthly breakdown *)

Section BreakdownFacts.

Local Open Scope Z_scope.

Implicit Types (b : gmap string Qc) (e : expense) (m K : Z) (s : string).

Lemma elem_of_range1 K m : m ∈ range1 K <-> 1 <= m <= K.
Proof.
  unfold range1. rewrite list_elem_of_In, in_map_iff. split.
  - intros (i & <- & Hi). apply in_seq in Hi. lia.
  - intros Hm. exists (Z.to_nat (m - 1)). split; [lia|].
    apply in_seq. lia.
Qed.

Lemma zero_filled_spec (ms : list Z) b :
  (forall m, m ∈ ms -> 1 <= m <= 12) ->
  exists b',
    zero_filled ms b = Some b'
    /\ (forall m s, m ∈ ms -> month_name m = Some s -> b' !! s = Some (Q2Qc 0))
    /\ (forall s, (forall m, m ∈ ms -> month_name m <> Some s) ->
                  b' !! s = b !! s).
Proof.
  revert b. induction ms as [|m0 ms IH]; intros b Hms.
  - exists b. split; [reflexivity|]. split.
    + intros m s Hm. apply elem_of_nil in Hm. contradiction.
    + reflexivity.
  - destruct (month_name_is_Some m0) as (s0 & Hs0 & _);
      [apply Hms, list_elem_of_here|].
    destruct (IH (<[s0 := Q2Qc 0]> b)) as (b' & Hrun & Hin & Hout).
    { intros m Hm. apply Hms, list_elem_of_further, Hm. }
    exists b'. split; [|split].
    + cbn [zero_filled]. rewrite Hs0. exact Hrun.
    + intros m s Hm Hs.
      destruct (decide (Exists (fun m' => month_name m' = Some s) ms))
        as [Hyes|Hno].
      * apply Exists_exists in Hyes as (m' & Hm' & Hs').
        apply (Hin m' s Hm' Hs').
      * rewrite Exists_exists in Hno.
        apply elem_of_cons in Hm as [->|Hm]; [|exfalso; eauto].
        rewrite Hout by (intros m' Hm' Hs'; eauto).
        assert (s = s0) as -> by congruence. apply lookup_insert_eq.
    + intros s Hs. rewrite Hout.
      * apply lookup_insert_ne. intros ->.
        apply (Hs m0); [apply list_elem_of_here|exact Hs0].
      * intros m Hm. apply Hs, list_elem_of_further, Hm.
Qed.

Lemma breakdown_loop_spec K (exps : list expense) b :
  K <= 12 ->
  (forall e, e ∈ exps -> 1 <= month e) ->
  keyed K b ->
  exists b',
    breakdown_loop K exps b = Some b'
    /\ dom b' = dom b
    /\ (forall m s, 1 <= m <= K -> month_name m = Some s ->
          b' !! s
          = Some (fold_left Qcplus
                    (map amount (filter (fun e => month e = m) exps))
                    (default (Q2Qc 0) (b !! s)))).
Proof.
  intros HK. revert b. induction exps as [|e exps IH]; intros b Hmonths Hkeys.
  - exists b. split; [reflexivity|]. split; [reflexivity|].
    intros m s Hm Hs. destruct (Hkeys m s Hm Hs) as [v Hv].
    rewrite Hv. reflexivity.
  - assert (He : 1 <= month e) by (apply Hmonths, list_elem_of_here).
    assert (Hrest : forall e', e' ∈ exps -> 1 <= month e')
      by (intros e' He'; apply Hmonths, list_elem_of_further, He').
    cbn [breakdown_loop]. unfold breakdown_step.
    destruct (month e <=? K) eqn:Hle.
    + apply Z.leb_le in Hle.
      destruct (month_name_is_Some (month e)) as (s0 & Hs0 & _); [lia|].
      destruct (Hkeys (month e) s0) as [old Hold]; [lia|exact Hs0|].
      rewrite Hs0. cbn [mbind option_bind]. rewrite Hold. cbn [mbind option_bind].
      destruct (IH (<[s0 := (old + amount e)%Qc]> b)) as (b' & Hrun & Hdom & Hval).
      { exact Hrest. }
      { intros m s Hm Hs. destruct (decide (s = s0)) as [->|Hne].
        - rewrite lookup_insert_eq. eauto.
        - rewrite lookup_insert_ne by congruence. apply (Hkeys m s Hm Hs). }
      exists b'. split; [exact Hrun|]. split.
      * rewrite Hdom, dom_insert_L.
        apply subseteq_union_1_L, singleton_subseteq_l, elem_of_dom. eauto.
      * intros m s Hm Hs. rewrite (Hval m s Hm Hs), filter_cons.
        destruct (decide (month e = m)) as [Heq|Hne].
        -- assert (s = s0) as -> by (rewrite Heq in Hs0; congruence).
           rewrite lookup_insert_eq, Hold. reflexivity.
        -- rewrite lookup_insert_ne; [reflexivity|].
           intros <-. apply Hne.
           apply (month_name_inj (month e) m s0); [lia|lia|assumption..].
    + apply Z.leb_gt in Hle. cbn [mbind option_bind].
      destruct (IH b Hrest Hkeys) as (b' & Hrun & Hdom & Hval).
      exists b'. split; [exact Hrun|]. split; [exact Hdom|].
      intros m s Hm Hs. rewrite (Hval m s Hm Hs), filter_cons.
      rewrite decide_False by lia. reflexivity.
Qed.

(** Records of a month after [K] do not take part in the loop. *)
Lemma breakdown_loop_skips K (exps : list expense) b :
  breakdown_loop K exps b
  = breakdown_loop K (filter (fun e => month e <= K) exps) b.
Proof.
  revert b. induction exps as [|e exps IH]; intros b; [reflexivity|].
  rewrite filter_cons.
  destruct (decide (month e <= K)) as [Hle|Hgt].
  - cbn [breakdown_loop].
    destruct (breakdown_step K b e); cbn [mbind option_bind];
      [apply IH|reflexivity].
  - cbn [breakdown_loop]. unfold breakdown_step.
    replace (month e <=? K) with false by lia.
    cbn [mbind option_bind]. apply IH.
Qed.

End BreakdownFacts.

Lemma find_filter_comm (q : query) (P : expense -> Prop)
    `{forall e, Decision (P e)} (store : list expense) :
  find q (filter P store) = filter P (find q store).
Proof.
  unfold find. rewrite !list_filter_filter.
  apply list_filter_iff. intros e. tauto.
Qed.

(** C6.  When the clock shows a month from 1 to 12 and every stored month
    number is at least 1, [get_monthly_breakdown] returns a mapping whose
    keys are exactly the display names of the months 1 to [K], where [K]
    is the current month for the current year and 12 for any other year.
    Each of these months is mapped to the sum of [amount] over the
    records of that year and month that are neither deleted nor shared,
    which is 0 for a month without such records, so a year without
    records gives [K] zero entries and not an empty mapping.  Records of
    a month after [K] change nothing. *)
Theorem get_monthly_breakdown_zero_filled
    (store : list expense) (now : clock) (y : Z)
    (Hclock : (1 <= current_month now <= 12)%Z)
    (Hmonths : forall e, e ∈ store -> (1 <= month e)%Z) :
  let K := months_so_far now y in
  exists breakdown : gmap string Qc,
    get_monthly_breakdown store now y = Some breakdown
    /\ (forall m, (1 <= m <= K)%Z ->
          exists name,
            month_name m = Some name
            /\ breakdown !! name
               = Some (py_sum (map amount
                         (filter (fun e => month e = m)
                                 (filter (counts_for_year y) store)))))
    /\ (forall name, is_Some (breakdown !! name) ->
          exists m, (1 <= m <= K)%Z /\ month_name m = Some name)
    /\ ((forall e, e ∈ store -> ~ counts_for_year y e) ->
        forall m, (1 <= m <= K)%Z ->
          exists name,
            month_name m = Some name /\ breakdown !! name = Some (Q2Qc 0))
    /\ get_monthly_breakdown (filter (fun e => (month e <= K)%Z) store) now y
       = Some breakdown.
Proof.
  intros K.
  assert (HK : (1 <= K <= 12)%Z).
  { subst K. unfold months_so_far. destruct (decide (y = current_year now)); lia. }
  destruct (zero_filled_spec (range1 K) ∅) as (b0 & Hzero & Hin & Hout).
  { intros m Hm. apply elem_of_range1 in Hm. lia. }
  assert (Hkeys : keyed K b0).
  { intros m s Hm Hs. rewrite (Hin m s); [eauto|apply elem_of_range1; exact Hm|exact Hs]. }
  destruct (breakdown_loop_spec K (filter (counts_for_year y) store) b0)
    as (b' & Hrun & Hdom & Hval); [lia| |exact Hkeys|].
  { intros e He. apply list_elem_of_filter in He as [_ He]. apply Hmonths, He. }
  assert (Hcall : get_monthly_breakdown store now y = Some b').
  { unfold get_monthly_breakdown. fold (months_so_far now y). fold K.
    rewrite Hzero. cbn [mbind option_bind]. rewrite find_year. exact Hrun. }
  assert (Hsum : forall m, (1 <= m <= K)%Z ->
            exists name,
              month_name m = Some name
              /\ b' !! name
                 = Some (py_sum (map amount
                           (filter (fun e => month e = m)
                                   (filter (counts_for_year y) store))))).
  { intros m Hm. destruct (month_name_is_Some m) as (s & Hs & _); [lia|].
    exists s. split; [exact Hs|].
    rewrite (Hval m s Hm Hs), (Hin m s); [reflexivity| |exact Hs].
    apply elem_of_range1. exact Hm. }
  exists b'. split; [exact Hcall|]. split; [exact Hsum|]. split; [|split].
  - intros name Hname. apply elem_of_dom in Hname. rewrite Hdom in Hname.
    apply elem_of_dom in Hname.
    destruct (decide (Exists (fun m => month_name m = Some name) (range1 K)))
      as [Hyes|Hno].
    + apply Exists_exists in Hyes as (m & Hm & Hs).
      exists m. split; [apply elem_of_range1; exact Hm|exact Hs].
    + rewrite Exists_exists in Hno. rewrite Hout, lookup_empty in Hname.
      * destruct Hname as [? ?]. discriminate.
      * intros m Hm Hs. apply Hno. eauto.
  - intros Hnone m Hm. destruct (Hsum m Hm) as (name & Hs & Hv).
    exists name. split; [exact Hs|].
    rewrite Hv, (filter_none (counts_for_year y)) by exact Hnone. reflexivity.
  - unfold get_monthly_breakdown. fold (months_so_far now y). fold K.
    rewrite Hzero. cbn [mbind option_bind].
    rewrite find_filter_comm, <- breakdown_loop_skips, find_year. exact Hrun.
Qed.

Lemma get_monthly_breakdown_zero_filled_witness :
  exists breakdown : gmap string Qc,
    get_monthly_breakdown example_expenses example_clock 2024 = Some breakdown
    /\ breakdown !! "March"%string = Some (Q2Qc 0).
Proof.
  assert (Hclock : (1 <= current_month example_clock <= 12)%Z) by (simpl; lia).
  assert (Hmonths : forall e, e ∈ example_expenses -> (1 <= month e)%Z).
  { apply Forall_forall. compute_done. }
  destruct (get_monthly_breakdown_zero_filled example_expenses example_clock
              2024 Hclock Hmonths)
    as (breakdown & Hcall & Hsum & _).
  exists breakdown. split; [exact Hcall|].
  destruct (Hsum 3%Z) as (name & Hname & Hv); [vm_compute; split; discriminate|].
  injection Hname as <-. rewrite Hv. f_equal.
Defined.

(** * Further properties *)

(** ** The ledger as a whole *)

Section LedgerClosedForm.

Context {char : Type} `{Countable char}.

Local Open Scope Qc_scope.

Implicit Types (balances a b : gmap (list char) Qc) (k : list char).
Implicit Types (l : list (shared_expense char)) (exp : shared_expense char).

Lemma dom_net_loop l balances :
  dom (fold_left net_step l balances) = dom balances ∪ named_by l.
Proof.
  revert balances. induction l as [|exp l IH]; intros balances.
  - simpl. rewrite (right_id_L ∅ (∪)). reflexivity.
  - cbn [fold_left named_by]. rewrite IH, dom_net_step.
    rewrite <- !(assoc_L (∪)). reflexivity.
Qed.

End LedgerClosedForm.

(** X1.  The keys of the balances are exactly the people named, as payer
    or as participant, by an unsettled record; somebody no unsettled
    record names has no entry at all. *)
Theorem calculate_net_balances_closed_form
    {char : Type} `{Countable char}
    (shared : list (shared_expense char)) (k : list char) :
  dom (calculate_net_balances shared) = named_by (find_unsettled shared)
  /\ (calculate_net_balances shared !! k = None
      <-> k ∉ named_by (find_unsettled shared)).
Proof.
  assert (Hdom : dom (calculate_net_balances shared)
                 = named_by (find_unsettled shared)).
  { unfold calculate_net_balances. rewrite dom_net_loop, dom_empty_L.
    apply (left_id_L ∅ (∪)). }
  split; [exact Hdom|].
  rewrite <- Hdom, not_elem_of_dom. reflexivity.
Qed.

(** ** What the intake stores *)

Section StripFacts.

Context {char : Type} `{EqDecision char}.
Variable comma : char.
Variable isspace : char -> bool.

Implicit Types (s w p : list char) (c : char).

Lemma lstrip_suffix s : exists pre, s = pre ++ lstrip isspace s.
Proof.
  induction s as [|c s [pre IH]]; [exists []; reflexivity|].
  simpl. destruct (isspace c).
  - exists (c :: pre). simpl. f_equal. exact IH.
  - exists []. reflexivity.
Qed.

Lemma lstrip_head s c : head (lstrip isspace s) = Some c -> isspace c = false.
Proof.
  induction s as [|c' s IH]; simpl; [discriminate|].
  destruct (isspace c') eqn:Hc'; [exact IH|].
  simpl. intros [= <-]. exact Hc'.
Qed.

Lemma lstrip_fixed s :
  (forall c, head s = Some c -> isspace c = false) -> lstrip isspace s = s.
Proof.
  destruct s as [|c s]; [reflexivity|]. intros Hc. simpl.
  rewrite (Hc c) by reflexivity. reflexivity.
Qed.

Lemma rstrip_prefix s : exists suf, s = rstrip isspace s ++ suf.
Proof.
  unfold rstrip. destruct (lstrip_suffix (rev s)) as [pre Hpre].
  exists (rev pre). rewrite <- rev_app_distr, <- Hpre, rev_involutive.
  reflexivity.
Qed.

Lemma last_rev s : last (rev s) = head s.
Proof.
  destruct s as [|c s]; [reflexivity|]. simpl. apply last_snoc.
Qed.

Lemma rstrip_last s c : last (rstrip isspace s) = Some c -> isspace c = false.
Proof.
  unfold rstrip. rewrite last_rev. apply lstrip_head.
Qed.

Lemma rstrip_head s c :
  head (rstrip isspace s) = Some c -> head s = Some c.
Proof.
  destruct (rstrip_prefix s) as [suf Hs]. intros Hc. rewrite Hs.
  destruct (rstrip isspace s); [discriminate|exact Hc].
Qed.

Lemma rstrip_fixed s :
  (forall c, last s = Some c -> isspace c = false) -> rstrip isspace s = s.
Proof.
  intros Hc. unfold rstrip. rewrite lstrip_fixed.
  - apply rev_involutive.
  - intros c Hhead. apply Hc. rewrite <- (rev_involutive s), last_rev.
    exact Hhead.
Qed.

Lemma strip_elem s c : c ∈ strip isspace s -> c ∈ s.
Proof.
  unfold strip. intros Hc.
  destruct (lstrip_suffix s) as [pre Hpre].
  destruct (rstrip_prefix (lstrip isspace s)) as [suf Hsuf].
  rewrite Hpre, Hsuf, !elem_of_app. tauto.
Qed.

Lemma strip_head s c : head (strip isspace s) = Some c -> isspace c = false.
Proof. unfold strip. intros Hc. apply rstrip_head, lstrip_head in Hc. exact Hc. Qed.

Lemma strip_last s c : last (strip isspace s) = Some c -> isspace c = false.
Proof. unfold strip. apply rstrip_last. Qed.

Lemma strip_strip s : strip isspace (strip isspace s) = strip isspace s.
Proof.
  unfold strip at 1. rewrite lstrip_fixed by apply strip_head.
  apply rstrip_fixed, strip_last.
Qed.

Lemma split_fields_without_comma s w : w ∈ split comma s -> comma ∉ w.
Proof.
  revert w. induction s as [|c s IH]; intros w; simpl.
  - intros Hw. apply list_elem_of_singleton in Hw. subst w. apply not_elem_of_nil.
  - destruct (decide (c = comma)) as [->|Hne].
    + intros Hw. apply elem_of_cons in Hw as [->|Hw]; [apply not_elem_of_nil|].
      apply IH, Hw.
    + destruct (split comma s) as [|w0 ws] eqn:Hsp.
      * intros Hw. apply list_elem_of_singleton in Hw. subst w.
        intros Hc. apply list_elem_of_singleton in Hc. congruence.
      * intros Hw. apply elem_of_cons in Hw as [->|Hw].
        -- intros Hc. apply elem_of_cons in Hc as [Hc|Hc]; [congruence|].
           apply (IH w0); [apply list_elem_of_here|exact Hc].
        -- apply IH, list_elem_of_further, Hw.
Qed.

End StripFacts.

(** X4.  Every stored participant after the first is a cleaned field of
    the input: it is not empty, is not the payer, contains no comma,
    neither begins nor ends with white space, and stripping it again
    changes nothing. *)
Theorem stored_participants_are_clean
    {char : Type} `{EqDecision char} (comma : char) (isspace : char -> bool)
    (form_title payer raw form_date : list char) (total : Qc)
    (p : list char)
    (Hp : p ∈ tail (participants
                 (add_shared_expense comma isspace form_title payer raw
                    form_date total))) :
  p <> [] /\ p <> payer /\ (comma ∉ p)
  /\ (forall c, head p = Some c -> isspace c = false)
  /\ (forall c, last p = Some c -> isspace c = false)
  /\ strip isspace p = p.
Proof.
  simpl in Hp. apply others_of_elem in Hp as ((w & Hw & ->) & Hne & Hpayer).
  split; [exact Hne|]. split; [exact Hpayer|]. split; [|split; [|split]].
  - intros Hc. apply strip_elem in Hc.
    exact (split_fields_without_comma comma raw w Hw Hc).
  - apply strip_head.
  - apply strip_last.
  - apply strip_strip.
Qed.

Lemma stored_participants_are_clean_witness :
  chars "B" <> [] /\ chars "B" <> chars "A" /\ (ascii_comma ∉ chars "B")
  /\ (forall c, head (chars "B") = Some c -> ascii_isspace c = false)
  /\ (forall c, last (chars "B") = Some c -> ascii_isspace c = false)
  /\ strip ascii_isspace (chars "B") = chars "B".
Proof.
  apply (stored_participants_are_clean ascii_comma ascii_isspace
           (chars "Dinner") (chars "A") (chars " B , C,,A")
           (chars "2024-01-05") (Q2Qc 90) (chars "B")).
  vm_compute. apply list_elem_of_here.
Defined.

(** X5.  When every field of the participants input is blank or names the
    payer, the payer is the only stored participant, the share is the
    whole total rounded to two decimal places, and the balances of that
    record alone hold just the payer, with the total less that share. *)
Theorem sole_payer_record
    {char : Type} `{Countable char} (comma : char) (isspace : char -> bool)
    (form_title payer raw form_date : list char) (total : Qc)
    (Hblank : forall w, w ∈ split comma raw ->
                strip isspace w = [] \/ strip isspace w = payer) :
  let exp := add_shared_expense comma isspace form_title payer raw form_date total in
  participants exp = [payer]
  /\ per_person_amount exp = round2 total
  /\ calculate_net_balances [exp] = {[ payer := (total - round2 total)%Qc ]}.
Proof.
  intros exp.
  assert (Hothers : others_of comma isspace payer raw = []).
  { rewrite others_of_filter. apply filter_none.
    intros p Hp [Hne Hpayer]. apply list_elem_of_fmap in Hp as (w & -> & Hw).
    destruct (Hblank w Hw); contradiction. }
  assert (Hpart : participants exp = [payer])
    by (subst exp; simpl; rewrite Hothers; reflexivity).
  assert (Hper : per_person_amount exp = round2 total).
  { subst exp. simpl. rewrite Hothers. simpl. f_equal.
    change (Z.of_nat 1) with 1%Z. rewrite Z2Qc_inj_1.
    apply Qc_eq_via_Q. unfold Qcdiv, Qcmult, Qcinv. simpl.
    rewrite !Qred_correct. field. }
  split; [exact Hpart|]. split; [exact Hper|].
  rewrite calculate_net_balances_one by reflexivity.
  apply map_eq. intros k. rewrite net_step_lookup.
  unfold contribution. rewrite Hpart, Hper.
  change (paid_by exp) with payer. change (total_amount exp) with total.
  destruct (decide (k = payer)) as [->|Hne].
  - rewrite decide_True by (left; reflexivity).
    rewrite lookup_singleton_eq. f_equal. cbn [debits].
    rewrite decide_True by reflexivity.
    unfold bal. rewrite lookup_empty. simpl. ring.
  - rewrite decide_False.
    + rewrite lookup_empty, lookup_singleton_ne by congruence. reflexivity.
    + intros [?|Hin]; [contradiction|].
      apply list_elem_of_singleton in Hin. contradiction.
Qed.

Lemma sole_payer_record_witness :
  participants (add_shared_expense ascii_comma ascii_isspace (chars "Taxi")
                  (chars "A") (chars " , A,") (chars "2024-01-05") (Q2Qc (1 # 8)))
  = [chars "A"].
Proof.
  apply (sole_payer_record ascii_comma ascii_isspace (chars "Taxi")
           (chars "A") (chars " , A,") (chars "2024-01-05") (Q2Qc (1 # 8))).
  apply Forall_forall. compute_done.
Defined.

(** ** More on the aggregation engine *)

Lemma category_loop_entry (l : list expense) (totals : gmap string Qc) (c : string) :
  fold_left
    (fun totals exp =>
       <[category exp :=
           (default (Q2Qc 0) (totals !! category exp) + amount exp)%Qc]>
         totals)
    l totals !! c
  = match filter (fun e => category e = c) l with
    | [] => totals !! c
    | _ :: _ =>
        Some (fold_left Qcplus
                (map amount (filter (fun e => category e = c) l))
                (default (Q2Qc 0) (totals !! c)))
    end.
Proof.
  revert totals. induction l as [|e l IH]; intros totals; [reflexivity|].
  cbn [fold_left]. rewrite IH, filter_cons.
  destruct (decide (category e = c)) as [<-|Hne].
  - rewrite lookup_insert_eq. cbn [map fold_left default].
    destruct (filter (fun e0 => category e0 = category e) l); reflexivity.
  - rewrite lookup_insert_ne by exact Hne. reflexivity.
Qed.

Lemma find_selected_by (store : list expense) (month_arg year_arg : option Z) :
  find {| q_month := if_truthy month_arg; q_year := if_truthy year_arg;
          q_is_deleted := Some false; q_is_shared := Some false |} store
  = filter (selected_by month_arg year_arg) store.
Proof.
  unfold find. apply list_filter_iff. intros e.
  unfold matches, field_ok, if_truthy, selected_by, passes.
  cbn [q_month q_year q_is_deleted q_is_shared].
  destruct month_arg as [m|], year_arg as [y|];
    repeat match goal with
           | |- context [decide (?v = 0%Z)] => destruct (decide (v = 0%Z))
           end;
    rewrite ?andb_true_iff, ?bool_decide_eq_true; tauto.
Qed.

Lemma get_category_totals_lookup
    (store : list expense) (month_arg year_arg : option Z) (c : string) :
  get_category_totals store month_arg year_arg !! c
  = (if decide (filter (fun e => category e = c)
                  (filter (selected_by month_arg year_arg) store) = [])
     then None
     else Some (py_sum (map amount
                  (filter (fun e => category e = c)
                     (filter (selected_by month_arg year_arg) store))))).
Proof.
  unfold get_category_totals. rewrite find_selected_by, category_loop_entry.
  rewrite lookup_empty.
  destruct (filter (fun e => category e = c)
              (filter (selected_by month_arg year_arg) store));
    [reflexivity|].
  rewrite decide_False by discriminate. reflexivity.
Qed.

(** X6.  [get_category_totals] has an entry for a category exactly when
    one of the selected expenses carries it, and the entry is the sum of
    the amounts of those expenses.  The selected expenses are the ones
    that are neither deleted nor shared and match the month and the year
    given; a month or a year given as 0 selects like one not given. *)
Theorem get_category_totals_entries
    (store : list expense) (month_arg year_arg : option Z) (c : string) :
  let selected := filter (selected_by month_arg year_arg) store in
  let mine := filter (fun e => category e = c) selected in
  get_category_totals store month_arg year_arg !! c
  = (if decide (mine = []) then None else Some (py_sum (map amount mine)))
  /\ get_category_totals store (Some 0%Z) year_arg
     = get_category_totals store None year_arg
  /\ get_category_totals store month_arg (Some 0%Z)
     = get_category_totals store month_arg None.
Proof.
  intros selected mine.
  split; [apply get_category_totals_lookup|split; reflexivity].
Qed.

Lemma filter_month_of_year (store : list expense) (m y : Z) :
  filter (fun e => month e = m) (filter (counts_for_year y) store)
  = filter (counts_for m y) store.
Proof.
  rewrite list_filter_filter. apply list_filter_iff. intros e.
  unfold counts_for, counts_for_year. tauto.
Qed.

(** What a successful call returns for a month up to [K]. *)
Lemma get_monthly_breakdown_entry
    (store : list expense) (now : clock) (y m : Z) :
  (1 <= current_month now <= 12)%Z ->
  (forall e, e ∈ store -> (1 <= month e)%Z) ->
  (1 <= m <= months_so_far now y)%Z ->
  exists (breakdown : gmap string Qc) (name : string),
    get_monthly_breakdown store now y = Some breakdown
    /\ month_name m = Some name
    /\ breakdown !! name = Some (get_monthly_total store m y).
Proof.
  intros Hclock Hmonths Hm.
  set (K := months_so_far now y) in *.
  assert (HK : (1 <= K <= 12)%Z).
  { subst K. unfold months_so_far. destruct (decide (y = current_year now)); lia. }
  destruct (zero_filled_spec (range1 K) ∅) as (b0 & Hzero & Hin & _).
  { intros m' Hm'. apply elem_of_range1 in Hm'. lia. }
  destruct (breakdown_loop_spec K (filter (counts_for_year y) store) b0)
    as (b' & Hrun & _ & Hval); [lia| | |].
  { intros e He. apply list_elem_of_filter in He as [_ He]. apply Hmonths, He. }
  { intros m' s Hm' Hs.
    rewrite (Hin m' s); [eauto|apply elem_of_range1; exact Hm'|exact Hs]. }
  destruct (month_name_is_Some m) as (name & Hname & _); [lia|].
  exists b', name. split; [|split; [exact Hname|]].
  - unfold get_monthly_breakdown. fold (months_so_far now y). fold K.
    rewrite Hzero. cbn [mbind option_bind]. rewrite find_year. exact Hrun.
  - rewrite (Hval m name Hm Hname), (Hin m name);
      [|apply elem_of_range1; exact Hm|exact Hname].
    rewrite filter_month_of_year, get_monthly_total_filter. reflexivity.
Qed.

(** X7.  With the clock at a month from 1 to 12 and stored months of at
    least 1, the breakdown of a year maps every month up to [K] to what
    [get_monthly_total] gives for that month and year. *)
Theorem breakdown_agrees_with_monthly_total
    (store : list expense) (now : clock) (y m : Z)
    (Hclock : (1 <= current_month now <= 12)%Z)
    (Hmonths : forall e, e ∈ store -> (1 <= month e)%Z)
    (Hm : (1 <= m <= months_so_far now y)%Z) :
  exists (breakdown : gmap string Qc) (name : string),
    get_monthly_breakdown store now y = Some breakdown
    /\ month_name m = Some name
    /\ breakdown !! name = Some (get_monthly_total store m y).
Proof. apply get_monthly_breakdown_entry; assumption. Qed.

Lemma breakdown_agrees_with_monthly_total_witness :
  exists (breakdown : gmap string Qc) (name : string),
    get_monthly_breakdown example_expenses example_clock 2024 = Some breakdown
    /\ month_name 1 = Some name
    /\ breakdown !! name = Some (get_monthly_total example_expenses 1 2024).
Proof.
  apply (breakdown_agrees_with_monthly_total example_expenses example_clock
           2024 1).
  - simpl. lia.
  - apply Forall_forall. compute_done.
  - vm_compute. split; discriminate.
Defined.

Lemma month_name_empty (m : Z) :
  month_name m = Some ""%string -> m = 0%Z \/ m = (-13)%Z.
Proof.
  intros Hm.
  assert (Hrange : (-13 <= m <= 12)%Z).
  { destruct (decide (-13 <= m <= 12)%Z) as [?|Hout]; [assumption|].
    assert (Hnone : month_name m = None)
      by (unfold month_name; apply py_index_None; simpl; lia).
    congruence. }
  assert (Hcases : m = (-13)%Z \/ (-12 <= m <= -1)%Z \/ m = 0%Z \/ (1 <= m <= 12)%Z)
    by lia.
  destruct Hcases as [?|[Hneg|[?|Hpos]]]; [tauto| |tauto|].
  - exfalso. assert (Hw : (1 <= m + 13 <= 12)%Z) by lia.
    destruct (month_name_is_Some (m + 13) Hw) as (s & Hs & Hne).
    unfold month_name in Hm. rewrite py_index_wrap in Hm by (simpl; lia).
    unfold month_name in Hs. simpl length in Hm.
    replace (Z.of_nat 13 + m)%Z with (m + 13)%Z in Hm by lia. congruence.
  - exfalso. destruct (month_name_is_Some m Hpos) as (s & Hs & Hne). congruence.
Qed.

Lemma zero_filled_keys (ms : list Z) (b b' : gmap string Qc) (s : string) :
  zero_filled ms b = Some b' -> is_Some (b' !! s) ->
  is_Some (b !! s) \/ exists m, m ∈ ms /\ month_name m = Some s.
Proof.
  revert b. induction ms as [|m0 ms IH]; intros b; cbn [zero_filled].
  - intros [= <-]. tauto.
  - destruct (month_name m0) as [s0|] eqn:Hs0; cbn [mbind option_bind];
      [|discriminate].
    intros Hrun Hs. destruct (IH _ Hrun Hs) as [Hb|(m & Hm & Hname)].
    + destruct (decide (s = s0)) as [->|Hne].
      * right. exists m0. split; [apply list_elem_of_here|exact Hs0].
      * left. rewrite lookup_insert_ne in Hb by congruence. exact Hb.
    + right. exists m. split; [apply list_elem_of_further, Hm|exact Hname].
Qed.

Lemma breakdown_step_keys (K : Z) (b b' : gmap string Qc) (e : expense) (s : string) :
  breakdown_step K b e = Some b' -> (is_Some (b' !! s) <-> is_Some (b !! s)).
Proof.
  unfold breakdown_step. destruct (month e <=? K)%Z; [|intros [= <-]; tauto].
  destruct (month_name (month e)) as [s0|]; cbn [mbind option_bind]; [|discriminate].
  destruct (b !! s0) as [old|] eqn:Hold; cbn [mbind option_bind]; [|discriminate].
  intros [= <-]. destruct (decide (s = s0)) as [->|Hne].
  - rewrite lookup_insert_eq, Hold. split; eauto.
  - rewrite lookup_insert_ne by congruence. tauto.
Qed.

Lemma breakdown_loop_month_zero (K : Z) (l : list expense) (b : gmap string Qc)
    (e : expense) :
  (0 <= K)%Z -> e ∈ l -> month e = 0%Z -> b !! ""%string = None ->
  breakdown_loop K l b = None.
Proof.
  intros HK He Hmonth. revert b.
  induction l as [|x l IH]; intros b Hb; [apply elem_of_nil in He; contradiction|].
  cbn [breakdown_loop].
  destruct (breakdown_step K b x) as [b1|] eqn:Hstep; cbn [mbind option_bind];
    [|reflexivity].
  apply elem_of_cons in He as [<-|He].
  - exfalso. unfold breakdown_step in Hstep. rewrite Hmonth in Hstep.
    replace (0 <=? K)%Z with true in Hstep by lia.
    change (month_name 0) with (Some ""%string) in Hstep.
    cbn [mbind option_bind] in Hstep. rewrite Hb in Hstep. discriminate.
  - apply IH; [exact He|].
    apply eq_None_not_Some. rewrite (breakdown_step_keys K b b1 x _ Hstep).
    rewrite Hb. intros [? ?]. discriminate.
Qed.

Lemma get_monthly_breakdown_month_zero
    (store : list expense) (now : clock) (y : Z) (e : expense) :
  (0 <= current_month now)%Z ->
  e ∈ store -> counts_for_year y e -> month e = 0%Z ->
  get_monthly_breakdown store now y = None.
Proof.
  intros Hclock He Hcounts Hzero.
  unfold get_monthly_breakdown. fold (months_so_far now y).
  set (K := months_so_far now y).
  assert (HK : (0 <= K)%Z).
  { subst K. unfold months_so_far. destruct (decide (y = current_year now)); lia. }
  destruct (zero_filled (range1 K) ∅) as [b0|] eqn:Hfill; cbn [mbind option_bind];
    [|reflexivity].
  apply (breakdown_loop_month_zero K _ b0 e HK).
  - rewrite find_year. apply list_elem_of_filter. split; assumption.
  - exact Hzero.
  - apply eq_None_not_Some. intros Hsome.
    destruct (zero_filled_keys _ _ _ _ Hfill Hsome) as [Hempty|(m & Hm & Hname)].
    + rewrite lookup_empty in Hempty. destruct Hempty as [? ?]. discriminate.
    + apply elem_of_range1 in Hm. apply month_name_empty in Hname. lia.
Qed.


(** X8.  A record that counts for a year and is stored with month 0 makes
    the breakdown of that year fail, whatever else is stored, as soon as
    the clock month is not negative: its empty month name is never a key. *)
Theorem breakdown_fails_on_month_zero
    (store : list expense) (now : clock) (y : Z) (e : expense)
    (Hclock : (0 <= current_month now)%Z)
    (He : e ∈ store) (Hcounts : counts_for_year y e) (Hzero : month e = 0%Z) :
  get_monthly_breakdown store now y = None.
Proof. apply (get_monthly_breakdown_month_zero store now y e); assumption. Qed.

Lemma breakdown_fails_on_month_zero_witness :
  get_monthly_breakdown
    [ {| amount := Q2Qc 5; category := "Food"; description := "import";
         payment_mode := "cash"; date := "2024-00-05"; month := 0; year := 2024;
         is_shared := false; is_deleted := false |} ]%string
    example_clock 2024 = None.
Proof.
  eapply (breakdown_fails_on_month_zero _ example_clock 2024).
  - simpl. lia.
  - apply list_elem_of_here.
  - repeat split.
  - reflexivity.
Defined.

(** ** Dictionaries in insertion order *)

Section OdictFacts.

Implicit Types (d : list (string * Qc)) (k : string) (v : Qc).

Lemma od_get_lookup d k :
  od_get d k = (list_to_map d : gmap string Qc) !! k.
Proof.
  induction d as [|[k' v'] d IH]; [reflexivity|].
  cbn [od_get list_to_map foldr]. change (foldr _ ∅ d) with (list_to_map d : gmap string Qc).
  destruct (decide (k' = k)) as [->|Hne].
  - rewrite lookup_insert_eq. reflexivity.
  - rewrite lookup_insert_ne by exact Hne. exact IH.
Qed.

Lemma od_set_insert d k v :
  (list_to_map (od_set d k v) : gmap string Qc) = <[k := v]> (list_to_map d).
Proof.
  induction d as [|[k' v'] d IH]; [reflexivity|].
  cbn [od_set]. destruct (decide (k' = k)) as [->|Hne].
  - cbn [list_to_map foldr]. rewrite insert_insert_eq. reflexivity.
  - cbn [list_to_map foldr].
    change (foldr _ ∅ (od_set d k v))
      with (list_to_map (od_set d k v) : gmap string Qc).
    rewrite IH. apply insert_insert_ne. exact Hne.
Qed.

Lemma od_set_keys d k v :
  map fst (od_set d k v)
  = if decide (k ∈ map fst d) then map fst d else map fst d ++ [k].
Proof.
  induction d as [|[k' v'] d IH]; [reflexivity|].
  cbn [od_set map fst]. destruct (decide (k' = k)) as [->|Hne].
  - rewrite decide_True by apply list_elem_of_here. reflexivity.
  - cbn [map fst]. rewrite IH.
    destruct (decide (k ∈ map fst d)) as [Hin|Hnin].
    + rewrite decide_True by (apply list_elem_of_further; exact Hin). reflexivity.
    + rewrite decide_False; [reflexivity|].
      intros Hc. apply elem_of_cons in Hc as [?|?]; [congruence|contradiction].
Qed.

Lemma od_set_values_present d k v old :
  NoDup (map fst d) -> od_get d k = Some old ->
  py_sum (map snd (od_set d k v)) = (py_sum (map snd d) - old + v)%Qc.
Proof.
  induction d as [|[k' v'] d IH]; [discriminate|].
  cbn [od_get od_set map fst snd]. intros Hnd Hget.
  apply NoDup_cons in Hnd as [_ Hnd].
  destruct (decide (k' = k)) as [->|Hne].
  - injection Hget as ->. cbn [map snd]. rewrite !py_sum_cons. ring.
  - cbn [map snd]. rewrite !py_sum_cons, IH by assumption. ring.
Qed.

Lemma od_set_values_absent d k v :
  od_get d k = None ->
  py_sum (map snd (od_set d k v)) = (py_sum (map snd d) + v)%Qc.
Proof.
  induction d as [|[k' v'] d IH]; cbn [od_get od_set map snd].
  - intros _. rewrite py_sum_cons, !py_sum_nil. ring.
  - destruct (decide (k' = k)); [discriminate|]. intros Hget.
    cbn [map snd]. rewrite !py_sum_cons, IH by exact Hget. ring.
Qed.

Lemma od_get_is_Some d k : is_Some (od_get d k) <-> k ∈ map fst d.
Proof.
  induction d as [|[k' v'] d IH]; cbn [od_get map fst].
  - split; [intros [? ?]; discriminate|intros Hc; apply elem_of_nil in Hc; contradiction].
  - destruct (decide (k' = k)) as [->|Hne].
    + split; [intros _; apply list_elem_of_here|eauto].
    + rewrite IH, elem_of_cons. split; [tauto|intros [?|?]; [congruence|assumption]].
Qed.

Lemma od_set_NoDup d k v : NoDup (map fst d) -> NoDup (map fst (od_set d k v)).
Proof.
  intros Hnd. rewrite od_set_keys.
  destruct (decide (k ∈ map fst d)) as [Hin|Hnin]; [exact Hnd|].
  apply NoDup_app. split; [exact Hnd|]. split.
  - intros x Hx Hk. apply list_elem_of_singleton in Hk. subst x. contradiction.
  - apply NoDup_singleton.
Qed.

End OdictFacts.

Section FirstSeenFacts.

Implicit Types (ks seen : list string) (k : string).

Lemma first_seen_loop_spec ks seen :
  NoDup seen ->
  let out := fold_left
               (fun seen k => if decide (k ∈ seen) then seen else seen ++ [k])
               ks seen in
  NoDup out /\ (forall k, k ∈ out <-> k ∈ seen \/ k ∈ ks)
  /\ exists rest, out = seen ++ rest.
Proof.
  revert seen. induction ks as [|k0 ks IH]; intros seen Hnd; cbn [fold_left].
  - split; [exact Hnd|]. split.
    + intros k. rewrite elem_of_nil. tauto.
    + exists []. rewrite app_nil_r. reflexivity.
  - destruct (decide (k0 ∈ seen)) as [Hin|Hnin].
    + destruct (IH seen Hnd) as (Hout & Hmem & rest & Hrest).
      split; [exact Hout|]. split; [|exists rest; exact Hrest].
      intros k. rewrite Hmem, elem_of_cons.
      split; [tauto|intros [?|[->|?]]; tauto].
    + assert (Hnd' : NoDup (seen ++ [k0])).
      { apply NoDup_app. split; [exact Hnd|]. split; [|apply NoDup_singleton].
        intros x Hx Hk. apply list_elem_of_singleton in Hk. subst x. contradiction. }
      destruct (IH (seen ++ [k0]) Hnd') as (Hout & Hmem & rest & Hrest).
      split; [exact Hout|]. split.
      * intros k. rewrite Hmem, elem_of_app, list_elem_of_singleton, elem_of_cons.
        tauto.
      * exists (k0 :: rest). rewrite Hrest, <- app_assoc. reflexivity.
Qed.

End FirstSeenFacts.

Lemma category_items_loop (l : list expense) (d : list (string * Qc)) :
  let out := fold_left
    (fun totals exp =>
       od_set totals (category exp)
         (default (Q2Qc 0) (od_get totals (category exp)) + amount exp)%Qc)
    l d in
  (list_to_map out : gmap string Qc)
  = fold_left
      (fun totals exp =>
         <[category exp :=
             (default (Q2Qc 0) (totals !! category exp) + amount exp)%Qc]>
           totals)
      l (list_to_map d)
  /\ map fst out
     = fold_left (fun seen k => if decide (k ∈ seen) then seen else seen ++ [k])
         (map category l) (map fst d)
  /\ (NoDup (map fst d) ->
      py_sum (map snd out) = (py_sum (map snd d) + py_sum (map amount l))%Qc).
Proof.
  revert d. induction l as [|e l IH]; intros d; cbn [fold_left map].
  - split; [reflexivity|]. split; [reflexivity|].
    intros _. rewrite py_sum_nil. ring.
  - destruct (IH (od_set d (category e)
                    (default (Q2Qc 0) (od_get d (category e)) + amount e)%Qc))
      as (Hmap & Hkeys & Hsum).
    split; [|split].
    + cbv zeta in Hmap. rewrite Hmap, od_set_insert, od_get_lookup. reflexivity.
    + cbv zeta in Hkeys. rewrite Hkeys, od_set_keys. reflexivity.
    + intros Hnd. cbv zeta in Hsum. rewrite Hsum by (apply od_set_NoDup, Hnd).
      rewrite py_sum_cons.
      destruct (od_get d (category e)) as [old|] eqn:Hget.
      * rewrite (od_set_values_present d _ _ old Hnd Hget). simpl. ring.
      * rewrite (od_set_values_absent d _ _ Hget). simpl. ring.
Qed.

(** X9.  Read as a mapping, the category totals in insertion order are
    the category totals; their keys are the categories of the selected
    expenses in the order in which they first occur, each once. *)
Theorem category_totals_items_agree
    (store : list expense) (month_arg year_arg : option Z) :
  let items := category_totals_items store month_arg year_arg in
  let selected := filter (selected_by month_arg year_arg) store in
  (list_to_map items : gmap string Qc)
  = get_category_totals store month_arg year_arg
  /\ map fst items = first_seen (map category selected)
  /\ NoDup (map fst items)
  /\ (forall c, c ∈ map fst items <-> exists e, e ∈ selected /\ category e = c).
Proof.
  intros items selected.
  assert (Hfound :
    find {| q_month := if_truthy month_arg; q_year := if_truthy year_arg;
            q_is_deleted := Some false; q_is_shared := Some false |} store
    = selected).
  { apply find_selected_by. }
  destruct (category_items_loop selected []) as (Hmap & Hkeys & Hsum).
  cbv zeta in Hmap, Hkeys, Hsum.
  assert (Hitems : items
    = fold_left
        (fun totals exp =>
           od_set totals (category exp)
             (default (Q2Qc 0) (od_get totals (category exp)) + amount exp)%Qc)
        selected []).
  { subst items. unfold category_totals_items. rewrite Hfound. reflexivity. }
  destruct (first_seen_loop_spec (map category selected) [] (NoDup_nil_2))
    as (Hnd & Hmem & _).
  cbv zeta in Hnd, Hmem.
  split; [|split; [|split]].
  - rewrite Hitems, Hmap. unfold get_category_totals. rewrite Hfound. reflexivity.
  - rewrite Hitems, Hkeys. reflexivity.
  - rewrite Hitems, Hkeys. exact Hnd.
  - intros c. rewrite Hitems, Hkeys. cbn [map]. rewrite Hmem, elem_of_nil.
    rewrite list_elem_of_fmap. split.
    + intros [[]|(e & -> & He)]. eauto.
    + intros (e & He & <-). right. eauto.
Qed.

Section BreakdownItemsFacts.

Local Open Scope Z_scope.

Implicit Types (d : list (string * Qc)) (e : expense) (K m : Z).

Lemma zero_filled_items_refine (ms : list Z) d :
  (list_to_map <$> zero_filled_items ms d : option (gmap string Qc))
  = zero_filled ms (list_to_map d).
Proof.
  revert d. induction ms as [|m ms IH]; intros d; [reflexivity|].
  cbn [zero_filled_items zero_filled].
  destruct (month_name m) as [name|]; cbn [mbind option_bind]; [|reflexivity].
  rewrite IH, od_set_insert. reflexivity.
Qed.

Lemma breakdown_step_items_refine K d e :
  (list_to_map <$> breakdown_step_items K d e : option (gmap string Qc))
  = breakdown_step K (list_to_map d) e.
Proof.
  unfold breakdown_step_items, breakdown_step.
  destruct (month e <=? K); [|reflexivity].
  destruct (month_name (month e)) as [name|]; cbn [mbind option_bind]; [|reflexivity].
  rewrite <- od_get_lookup.
  destruct (od_get d name) as [old|]; cbn [mbind option_bind fmap option_fmap option_map];
    [|reflexivity].
  rewrite od_set_insert. reflexivity.
Qed.

Lemma breakdown_loop_items_refine K (l : list expense) d :
  (list_to_map <$> breakdown_loop_items K l d : option (gmap string Qc))
  = breakdown_loop K l (list_to_map d).
Proof.
  revert d. induction l as [|e l IH]; intros d; [reflexivity|].
  cbn [breakdown_loop_items breakdown_loop].
  rewrite <- breakdown_step_items_refine.
  destruct (breakdown_step_items K d e) as [d1|];
    cbn [mbind option_bind fmap option_fmap option_map]; [apply IH|reflexivity].
Qed.

Lemma monthly_breakdown_items_refine (store : list expense) (now : clock) (y : Z) :
  (list_to_map <$> monthly_breakdown_items store now y : option (gmap string Qc))
  = get_monthly_breakdown store now y.
Proof.
  unfold monthly_breakdown_items, get_monthly_breakdown.
  rewrite <- (zero_filled_items_refine _ []).
  destruct (zero_filled_items _ []) as [d0|];
    cbn [mbind option_bind fmap option_fmap option_map]; [|reflexivity].
  apply breakdown_loop_items_refine.
Qed.

Lemma breakdown_step_items_keys K d d' e :
  breakdown_step_items K d e = Some d' -> map fst d' = map fst d.
Proof.
  unfold breakdown_step_items. destruct (month e <=? K); [|intros [= <-]; reflexivity].
  destruct (month_name (month e)) as [name|]; cbn [mbind option_bind]; [|discriminate].
  destruct (od_get d name) as [old|] eqn:Hold; cbn [mbind option_bind]; [|discriminate].
  intros [= <-]. rewrite od_set_keys, decide_True; [reflexivity|].
  apply od_get_is_Some. eauto.
Qed.

Lemma breakdown_loop_items_keys K (l : list expense) d d' :
  breakdown_loop_items K l d = Some d' -> map fst d' = map fst d.
Proof.
  revert d. induction l as [|e l IH]; intros d; cbn [breakdown_loop_items].
  - intros [= <-]. reflexivity.
  - destruct (breakdown_step_items K d e) as [d1|] eqn:Hstep;
      cbn [mbind option_bind]; [|discriminate].
    intros Hrun. rewrite (IH _ Hrun). apply (breakdown_step_items_keys _ _ _ _ Hstep).
Qed.

Lemma zero_filled_items_keys (ms : list Z) d d' :
  zero_filled_items ms d = Some d' ->
  NoDup ms -> (forall m, m ∈ ms -> 1 <= m <= 12) ->
  (forall m s, m ∈ ms -> month_name m = Some s -> s ∉ map fst d) ->
  exists names,
    Forall2 (fun m s => month_name m = Some s) ms names
    /\ map fst d' = map fst d ++ names.
Proof.
  revert d. induction ms as [|m0 ms IH]; intros d; cbn [zero_filled_items].
  - intros [= <-] _ _ _. exists []. split; [constructor|].
    rewrite app_nil_r. reflexivity.
  - destruct (month_name m0) as [s0|] eqn:Hs0; cbn [mbind option_bind];
      [|discriminate].
    intros Hrun Hnd Hrange Hfresh.
    apply NoDup_cons in Hnd as [Hm0 Hnd].
    destruct (IH _ Hrun Hnd) as (names & Hnames & Hkeys).
    + intros m Hm. apply Hrange, list_elem_of_further, Hm.
    + intros m s Hm Hs. rewrite od_set_keys.
      rewrite decide_False by (apply (Hfresh m0 s0); [apply list_elem_of_here|exact Hs0]).
      rewrite elem_of_app, list_elem_of_singleton. intros [Hin| ->].
      * apply (Hfresh m s); [apply list_elem_of_further, Hm|exact Hs|exact Hin].
      * apply Hm0.
        rewrite <- (month_name_inj m m0 s0); [exact Hm| | |exact Hs|exact Hs0].
        -- apply Hrange, list_elem_of_further, Hm.
        -- apply Hrange, list_elem_of_here.
    + exists (s0 :: names). split; [constructor; assumption|].
      rewrite Hkeys, od_set_keys.
      rewrite decide_False by (apply (Hfresh m0 s0); [apply list_elem_of_here|exact Hs0]).
      rewrite <- app_assoc. reflexivity.
Qed.

Lemma NoDup_range1 K : NoDup (range1 K).
Proof.
  unfold range1.
  assert (Hinj : Inj eq eq (fun i : nat => Z.of_nat i + 1))
    by (intros i j Hij; lia).
  apply (NoDup_fmap_2 (fun i : nat => Z.of_nat i + 1)).
  apply NoDup_ListNoDup, seq_NoDup.
Qed.

Lemma od_values_by_keys d :
  NoDup (map fst d) ->
  map snd d = map (fun k => default (Q2Qc 0) (od_get d k)) (map fst d).
Proof.
  induction d as [|[k v] d IH]; [reflexivity|].
  cbn [map fst snd od_get]. intros Hnd. apply NoDup_cons in Hnd as [Hk Hnd].
  rewrite decide_True by reflexivity. cbn [default]. f_equal.
  rewrite IH by exact Hnd. apply map_ext_in. intros k' Hk'.
  rewrite decide_False; [reflexivity|].
  intros <-. apply Hk, list_elem_of_In, Hk'.
Qed.

End BreakdownItemsFacts.

Lemma month_names_NoDup (ms : list Z) (names : list string) :
  Forall2 (fun m s => month_name m = Some s) ms names ->
  NoDup ms -> (forall m, m ∈ ms -> (1 <= m <= 12)%Z) -> NoDup names.
Proof.
  induction 1 as [|m s ms names Hs Hrest IH]; intros Hnd Hrange.
  - apply NoDup_nil_2.
  - apply NoDup_cons in Hnd as [Hm Hnd]. apply NoDup_cons. split.
    + intros Hin. apply list_elem_of_lookup in Hin as [i Hi].
      destruct (Forall2_lookup_r _ _ _ i s Hrest Hi) as (m' & Hm' & Hs').
      apply Hm. rewrite (month_name_inj m m' s); [| | |exact Hs|exact Hs'].
      * apply list_elem_of_lookup. eauto.
      * apply Hrange, list_elem_of_here.
      * apply Hrange, list_elem_of_further, list_elem_of_lookup. eauto.
    + apply IH; [exact Hnd|].
      intros m' Hm'. apply Hrange, list_elem_of_further, Hm'.
Qed.

Lemma monthly_breakdown_items_spec
    (store : list expense) (now : clock) (y : Z) :
  (1 <= current_month now <= 12)%Z ->
  (forall e, e ∈ store -> (1 <= month e)%Z) ->
  exists d : list (string * Qc),
    monthly_breakdown_items store now y = Some d
    /\ Forall2 (fun m s => month_name m = Some s)
         (range1 (months_so_far now y)) (map fst d)
    /\ NoDup (map fst d)
    /\ (forall m s, (1 <= m <= months_so_far now y)%Z ->
          month_name m = Some s ->
          od_get d s = Some (get_monthly_total store m y)).
Proof.
  intros Hclock Hmonths.
  set (K := months_so_far now y).
  assert (HK : (1 <= K <= 12)%Z).
  { subst K. unfold months_so_far. destruct (decide (y = current_year now)); lia. }
  destruct (get_monthly_breakdown_entry store now y 1 Hclock Hmonths)
    as (b & _ & Hcall & _ & _); [fold K; lia|].
  pose proof (monthly_breakdown_items_refine store now y) as Hrefine.
  rewrite Hcall in Hrefine.
  destruct (monthly_breakdown_items store now y) as [d|] eqn:Hitems;
    [|discriminate].
  injection Hrefine as Hmap.
  exists d. split; [reflexivity|].
  unfold monthly_breakdown_items in Hitems.
  fold (months_so_far now y) in Hitems. fold K in Hitems.
  destruct (zero_filled_items (range1 K) []) as [d0|] eqn:Hfill;
    cbn [mbind option_bind] in Hitems; [|discriminate].
  destruct (zero_filled_items_keys _ _ _ Hfill (NoDup_range1 K))
    as (names & Hnames & Hkeys0).
  { intros m Hm. apply elem_of_range1 in Hm. lia. }
  { intros m s _ _ Hin. apply elem_of_nil in Hin. contradiction. }
  assert (Hkeys : map fst d = names).
  { rewrite (breakdown_loop_items_keys _ _ _ _ Hitems), Hkeys0. reflexivity. }
  split; [rewrite Hkeys; exact Hnames|]. split.
  - rewrite Hkeys. apply (month_names_NoDup _ _ Hnames (NoDup_range1 K)).
    intros m Hm. apply elem_of_range1 in Hm. lia.
  - intros m s Hm Hs.
    destruct (get_monthly_breakdown_entry store now y m Hclock Hmonths Hm)
      as (b' & name & Hcall' & Hname & Hentry).
    rewrite Hcall in Hcall'. injection Hcall' as <-.
    assert (name = s) as -> by congruence.
    rewrite od_get_lookup, Hmap. exact Hentry.
Qed.

Lemma Forall2_map_agree {A B C : Type} (R : A -> B -> Prop)
    (f : B -> C) (g : A -> C) (xs : list A) (ys : list B) :
  Forall2 R xs ys ->
  (forall x y, x ∈ xs -> R x y -> f y = g x) ->
  map f ys = map g xs.
Proof.
  induction 1 as [|x y xs ys Hxy _ IH]; intros Hagree; [reflexivity|].
  cbn [map]. f_equal.
  - apply Hagree; [apply list_elem_of_here|exact Hxy].
  - apply IH. intros x' y' Hx'. apply Hagree, list_elem_of_further, Hx'.
Qed.

(** X10.  With the clock at a month from 1 to 12 and stored months of at
    least 1, the monthly chart of a year has one label and one value for
    each month from 1 to [K], in calendar order: the labels are the month
    names and the values are the monthly totals. *)
Theorem monthly_chart_is_monthly_totals
    (store : list expense) (now : clock) (y : Z)
    (Hclock : (1 <= current_month now <= 12)%Z)
    (Hmonths : forall e, e ∈ store -> (1 <= month e)%Z) :
  exists items : list (string * Qc),
    monthly_breakdown_items store now y = Some items
    /\ get_monthly_breakdown store now y = Some (list_to_map items)
    /\ map Some (labels (chart_data items))
       = map month_name (range1 (months_so_far now y))
    /\ data (chart_data items)
       = map (fun m => get_monthly_total store m y)
             (range1 (months_so_far now y)).
Proof.
  destruct (monthly_breakdown_items_spec store now y Hclock Hmonths)
    as (d & Hitems & Hnames & Hnd & Hget).
  exists d. split; [exact Hitems|]. split; [|split].
  - rewrite <- monthly_breakdown_items_refine, Hitems. reflexivity.
  - cbn [chart_data labels]. clear Hget Hnd.
    induction Hnames as [|m s ms names Hs _ IH]; [reflexivity|].
    cbn [map]. rewrite Hs, IH. reflexivity.
  - cbn [chart_data data]. rewrite (od_values_by_keys d Hnd).
    apply (Forall2_map_agree _ _ _ _ _ Hnames).
    intros m s Hm Hs. apply elem_of_range1 in Hm.
    rewrite (Hget m s Hm Hs). reflexivity.
Qed.

Lemma monthly_chart_is_monthly_totals_witness :
  exists items : list (string * Qc),
    monthly_breakdown_items example_expenses example_clock 2024 = Some items
    /\ data (chart_data items)
       = map (fun m => get_monthly_total example_expenses m 2024)
             (range1 (months_so_far example_clock 2024)).
Proof.
  assert (Hclock : (1 <= current_month example_clock <= 12)%Z) by (simpl; lia).
  assert (Hmonths : forall e, e ∈ example_expenses -> (1 <= month e)%Z).
  { apply Forall_forall. compute_done. }
  destruct (monthly_chart_is_monthly_totals example_expenses example_clock
              2024 Hclock Hmonths)
    as (items & Hitems & _ & _ & Hdata).
  exists items. split; assumption.
Defined.

(** ** The year selector *)

Lemma StronglySorted_le_lt (l : list Z) :
  StronglySorted Z.le l -> NoDup l -> StronglySorted Z.lt l.
Proof.
  induction 1 as [|x l Hl IH Hx]; intros Hnd; [constructor|].
  apply NoDup_cons in Hnd as [Hnin Hnd]. constructor; [apply IH, Hnd|].
  apply Forall_forall. intros z Hz.
  assert (x <= z)%Z by (apply (proj1 (Forall_forall _ _) Hx), Hz).
  assert (x <> z) by (intros ->; contradiction).
  lia.
Qed.

Lemma available_years_sorted (store : list expense) :
  StronglySorted Z.le (available_years store).
Proof. apply StronglySorted_merge_sort; apply _. Qed.

Lemma available_years_elem (store : list expense) (y : Z) :
  y ∈ available_years store <-> exists e, e ∈ store /\ year e = y.
Proof.
  unfold available_years, distinct_years.
  rewrite merge_sort_Permutation, elem_of_remove_dups, list_elem_of_fmap.
  split; intros (e & He1 & He2); eauto.
Qed.

(** X13.  [available_years] lists, in strictly ascending order, exactly
    the years that occur in a stored expense, deleted and shared ones
    included; the result is the same whatever order the driver returns
    the distinct years in. *)
Theorem available_years_sorted_distinct
    (store : list expense) (ys : list Z)
    (Hys : Permutation ys (distinct_years store)) :
  StronglySorted Z.lt (available_years store)
  /\ (forall y, y ∈ available_years store <-> exists e, e ∈ store /\ year e = y)
  /\ merge_sort Z.le ys = available_years store.
Proof.
  split; [|split].
  - apply StronglySorted_le_lt; [apply available_years_sorted|].
    unfold available_years, distinct_years.
    rewrite merge_sort_Permutation. apply NoDup_remove_dups.
  - apply available_years_elem.
  - apply (StronglySorted_unique Z.le).
    + apply StronglySorted_merge_sort; apply _.
    + apply available_years_sorted.
    + unfold available_years. rewrite !merge_sort_Permutation. exact Hys.
Qed.

Lemma available_years_sorted_distinct_witness :
  merge_sort Z.le (rev (distinct_years example_expenses))
  = available_years example_expenses.
Proof.
  apply (available_years_sorted_distinct example_expenses
           (rev (distinct_years example_expenses))).
  symmetry. apply Permutation_rev.
Defined.

(** ** Deleting and adding expenses *)

Section DocumentFacts.

Context {oid : Type} `{EqDecision oid}.

Lemma update_one_ids {D : Type} (id : oid) (set : D -> D) (coll : list (oid * D)) :
  map fst (update_one id set coll) = map fst coll.
Proof.
  induction coll as [|[i d] coll IH]; [reflexivity|].
  cbn [update_one]. destruct (decide (i = id)); cbn [map fst]; [reflexivity|].
  rewrite IH. reflexivity.
Qed.

Lemma update_one_absent {D : Type} (id : oid) (set : D -> D) (coll : list (oid * D)) :
  find_one id coll = None -> update_one id set coll = coll.
Proof.
  induction coll as [|[i d] coll IH]; [reflexivity|].
  cbn [find_one update_one]. destruct (decide (i = id)); [discriminate|].
  intros Hnone. rewrite IH by exact Hnone. reflexivity.
Qed.

Lemma update_one_twice {D : Type} (id : oid) (set : D -> D) (coll : list (oid * D)) :
  (forall d, set (set d) = set d) ->
  update_one id set (update_one id set coll) = update_one id set coll.
Proof.
  intros Hset. induction coll as [|[i d] coll IH]; [reflexivity|].
  cbn [update_one]. destruct (decide (i = id)) as [Hi|Hi]; cbn [update_one].
  - rewrite decide_True by exact Hi. rewrite Hset. reflexivity.
  - rewrite decide_False by exact Hi. rewrite IH. reflexivity.
Qed.

Lemma update_one_inserted {D : Type} (id : oid) (set : D -> D) (doc : D)
    (coll : list (oid * D)) :
  id ∉ map fst coll ->
  update_one id set (insert_one id doc coll) = insert_one id (set doc) coll.
Proof.
  unfold insert_one. induction coll as [|[i d] coll IH]; cbn [map fst].
  - intros _. cbn [app update_one]. rewrite decide_True by reflexivity. reflexivity.
  - intros Hnin. apply not_elem_of_cons in Hnin as [Hne Hnin].
    cbn [app update_one]. rewrite decide_False by congruence.
    rewrite IH by exact Hnin. reflexivity.
Qed.

Lemma update_one_find_other {D : Type} (id i : oid) (set : D -> D)
    (coll : list (oid * D)) :
  find_one i (update_one id set coll)
  = if decide (i = id) then set <$> find_one i coll else find_one i coll.
Proof.
  induction coll as [|[j d] coll IH].
  - cbn. destruct (decide (i = id)); reflexivity.
  - cbn [update_one]. destruct (decide (j = id)) as [->|Hj]; cbn [find_one].
    + destruct (decide (id = i)) as [<-|Hi].
      * rewrite decide_True by reflexivity. reflexivity.
      * rewrite decide_False by congruence. reflexivity.
    + destruct (decide (j = i)) as [->|Hji].
      * rewrite decide_False by exact Hj. reflexivity.
      * exact IH.
Qed.

Lemma matches_deleted (q : query) (e : expense) :
  q_is_deleted q = Some false -> matches q (set_is_deleted e) = false.
Proof.
  intros Hq. unfold matches, field_ok. rewrite Hq. cbn [set_is_deleted is_deleted].
  rewrite bool_decide_eq_false_2 by discriminate.
  rewrite andb_false_r. reflexivity.
Qed.

Lemma find_cons (q : query) (e : expense) (store : list expense) :
  find q (e :: store) = if matches q e then e :: find q store else find q store.
Proof.
  unfold find. rewrite filter_cons.
  destruct (matches q e); [rewrite decide_True by reflexivity
                          |rewrite decide_False by discriminate]; reflexivity.
Qed.

Lemma find_app (q : query) (s1 s2 : list expense) :
  find q (s1 ++ s2) = find q s1 ++ find q s2.
Proof. unfold find. apply filter_app. Qed.

End DocumentFacts.

Lemma delete_expense_years {oid : Type} `{EqDecision oid}
    (coll : list (oid * expense)) (id : oid) :
  map year (docs (delete_expense coll id)) = map year (docs coll).
Proof.
  unfold delete_expense, docs.
  induction coll as [|[i d] coll IH]; [reflexivity|].
  cbn [update_one]. destruct (decide (i = id)); cbn [map snd]; [reflexivity|].
  rewrite IH. reflexivity.
Qed.

(** X15.  A deletion is soft: the collection keeps the same ids in the
    same order, a deleted expense stays deleted, the year selector is
    unchanged, deleting twice is deleting once, and an id that is not
    stored changes nothing. *)
Theorem delete_expense_is_soft
    {oid : Type} `{EqDecision oid}
    (coll : list (oid * expense)) (id : oid) :
  map fst (delete_expense coll id) = map fst coll
  /\ (forall i e, find_one i coll = Some e ->
        exists e', find_one i (delete_expense coll id) = Some e'
                   /\ (is_deleted e = true -> is_deleted e' = true)
                   /\ (i = id -> is_deleted e' = true))
  /\ available_years (docs (delete_expense coll id)) = available_years (docs coll)
  /\ delete_expense (delete_expense coll id) id = delete_expense coll id
  /\ (find_one id coll = None -> delete_expense coll id = coll).
Proof.
  split; [apply update_one_ids|]. split; [|split; [|split]].
  - intros i e Hfind. unfold delete_expense. rewrite update_one_find_other, Hfind.
    destruct (decide (i = id)) as [->|Hne].
    + exists (set_is_deleted e). split; [reflexivity|]. split; reflexivity.
    + exists e. split; [reflexivity|]. split; [tauto|contradiction].
  - unfold available_years, distinct_years. rewrite delete_expense_years. reflexivity.
  - apply update_one_twice. reflexivity.
  - apply update_one_absent.
Qed.

Lemma delete_expense_is_soft_witness :
  delete_expense example_documents 9%nat = example_documents.
Proof.
  apply (delete_expense_is_soft example_documents 9%nat). reflexivity.
Defined.

Lemma docs_insert_one {oid D : Type} (new_id : oid) (doc : D) (coll : list (oid * D)) :
  docs (insert_one new_id doc coll) = docs coll ++ [doc].
Proof. unfold docs, insert_one. rewrite map_app. reflexivity. Qed.

(** X16.  Adding an expense raises the total of the month and year of its
    date, and the total of that year, by its amount, leaves every other
    monthly and yearly total as it was, and puts its year into the year
    selector. *)
Theorem add_expense_raises_totals
    {oid : Type} `{EqDecision oid}
    (coll : list (oid * expense)) (new_id : oid) (form_amount : Qc)
    (form_category form_description form_payment_mode form_date : string)
    (date_obj_month date_obj_year : Z) (m y : Z) :
  let coll' := add_expense coll new_id form_amount form_category
                 form_description form_payment_mode form_date
                 date_obj_month date_obj_year in
  get_monthly_total (docs coll') m y
  = (get_monthly_total (docs coll) m y
     + (if decide (m = date_obj_month /\ y = date_obj_year)
        then form_amount else Q2Qc 0))%Qc
  /\ get_yearly_total (docs coll') y
     = (get_yearly_total (docs coll) y
        + (if decide (y = date_obj_year) then form_amount else Q2Qc 0))%Qc
  /\ date_obj_year ∈ available_years (docs coll').
Proof.
  intros coll'. subst coll'. unfold add_expense.
  rewrite docs_insert_one. split; [|split].
  - rewrite !get_monthly_total_filter, filter_app, map_app, py_sum_app.
    f_equal. rewrite filter_cons, filter_nil.
    destruct (decide (m = date_obj_month /\ y = date_obj_year)) as [[-> ->]|Hne].
    + rewrite decide_True by (repeat split). cbn [map amount].
      rewrite py_sum_cons, py_sum_nil. ring.
    + rewrite decide_False; [reflexivity|].
      unfold counts_for. cbn [month year]. intros (? & ? & _). apply Hne.
      split; congruence.
  - rewrite !get_yearly_total_filter, filter_app, map_app, py_sum_app.
    f_equal. rewrite filter_cons, filter_nil.
    destruct (decide (y = date_obj_year)) as [->|Hne].
    + rewrite decide_True by (repeat split). cbn [map amount].
      rewrite py_sum_cons, py_sum_nil. ring.
    + rewrite decide_False; [reflexivity|].
      unfold counts_for_year. cbn [year]. intros (? & _). congruence.
  - apply available_years_elem. eexists. split.
    + apply elem_of_app. right. apply list_elem_of_here.
    + reflexivity.
Qed.

(** X17.  Adding an expense under a fresh id and then deleting that id
    gives a collection in which every search for non-deleted expenses
    finds what it found before, so that every monthly total, every
    category total and every monthly breakdown is what it was before. *)
Theorem add_then_delete_restores
    {oid : Type} `{EqDecision oid}
    (coll : list (oid * expense)) (new_id : oid) (form_amount : Qc)
    (form_category form_description form_payment_mode form_date : string)
    (date_obj_month date_obj_year : Z)
    (Hfresh : new_id ∉ map fst coll) :
  let after :=
    docs (delete_expense
            (add_expense coll new_id form_amount form_category
               form_description form_payment_mode form_date
               date_obj_month date_obj_year) new_id) in
  (forall q, q_is_deleted q = Some false -> find q after = find q (docs coll))
  /\ (forall m y, get_monthly_total after m y = get_monthly_total (docs coll) m y)
  /\ (forall month_arg year_arg,
        get_category_totals after month_arg year_arg
        = get_category_totals (docs coll) month_arg year_arg)
  /\ (forall now y,
        get_monthly_breakdown after now y = get_monthly_breakdown (docs coll) now y).
Proof.
  intros after.
  assert (Hfind : forall q, q_is_deleted q = Some false ->
            find q after = find q (docs coll)).
  { intros q Hq. subst after. unfold delete_expense, add_expense.
    rewrite update_one_inserted by exact Hfresh.
    rewrite docs_insert_one, find_app, find_cons, matches_deleted by exact Hq.
    apply app_nil_r. }
  split; [exact Hfind|]. split; [|split].
  - intros m y. unfold get_monthly_total. rewrite Hfind by reflexivity. reflexivity.
  - intros month_arg year_arg. unfold get_category_totals.
    rewrite Hfind by reflexivity. reflexivity.
  - intros now y. unfold get_monthly_breakdown.
    rewrite Hfind by reflexivity. reflexivity.
Qed.

Lemma add_then_delete_restores_witness :
  get_monthly_total
    (docs (delete_expense
             (add_expense example_documents 7%nat (Q2Qc 20) "Food" "snack"
                "cash" "2024-03-02" 3 2024) 7%nat)) 3 2024
  = get_monthly_total (docs example_documents) 3 2024.
Proof.
  assert (Hfresh : 7%nat ∉ map fst example_documents) by compute_done.
  destruct (add_then_delete_restores example_documents 7%nat (Q2Qc 20)
              "Food" "snack" "cash" "2024-03-02" 3 2024 Hfresh)
    as (_ & Htotals & _).
  apply Htotals.
Defined.

(** ** Settling shared expenses *)

(** X19.  Storing a new shared expense under a fresh id applies it on top
    of the balances there were, and settling that id afterwards gives
    back those balances exactly. *)
Theorem add_shared_then_settle_restores
    {oid : Type} `{EqDecision oid} {char : Type} `{Countable char}
    (coll : list (oid * shared_expense char)) (new_id : oid)
    (comma : char) (isspace : char -> bool)
    (form_title payer raw form_date today : list char) (total : Qc)
    (Hfresh : new_id ∉ map fst coll) :
  let exp := add_shared_expense comma isspace form_title payer raw form_date total in
  let stored := insert_one new_id exp coll in
  calculate_net_balances (docs stored)
  = net_step (calculate_net_balances (docs coll)) exp
  /\ calculate_net_balances (docs (settle_shared_expense stored new_id today))
     = calculate_net_balances (docs coll).
Proof.
  intros exp stored. subst stored. split.
  - rewrite docs_insert_one. apply calculate_net_balances_snoc. reflexivity.
  - unfold settle_shared_expense. rewrite update_one_inserted by exact Hfresh.
    rewrite docs_insert_one. unfold calculate_net_balances, find_unsettled.
    rewrite filter_app, filter_cons, decide_False by discriminate.
    rewrite filter_nil, app_nil_r. reflexivity.
Qed.

Lemma add_shared_then_settle_restores_witness :
  calculate_net_balances
    (docs (settle_shared_expense
             (insert_one 3%nat
                (add_shared_expense ascii_comma ascii_isspace (chars "Taxi")
                   (chars "B") (chars "A, C") (chars "2024-02-01") (Q2Qc 10))
                example_shared_documents)
             3%nat (chars "2024-02-02")))
  = calculate_net_balances (docs example_shared_documents).
Proof.
  apply (add_shared_then_settle_restores example_shared_documents 3%nat
           ascii_comma ascii_isspace (chars "Taxi") (chars "B") (chars "A, C")
           (chars "2024-02-01") (chars "2024-02-02") (Q2Qc 10)).
  compute_done.
Defined.

Lemma range1_last (K : Z) : (1 <= K)%Z -> last (range1 K) = Some K.
Proof.
  intros HK. unfold range1.
  replace (Z.to_nat K) with (S (Z.to_nat (K - 1))) by lia.
  rewrite seq_S, map_app. cbn [map]. rewrite last_snoc. f_equal. lia.
Qed.

Lemma last_map {A B : Type} (f : A -> B) (l : list A) :
  last (map f l) = f <$> last l.
Proof.
  induction l as [|x l IH]; [reflexivity|].
  destruct l as [|x' l]; [reflexivity|]. exact IH.
Qed.

Lemma length_range1 (K : Z) : length (range1 K) = Z.to_nat K.
Proof. unfold range1. rewrite length_map, length_seq. reflexivity. Qed.

(** The items of a successful monthly breakdown, labels and values. *)
Lemma monthly_breakdown_items_values
    (store : list expense) (now : clock) (y : Z) :
  (1 <= current_month now <= 12)%Z ->
  (forall e, e ∈ store -> (1 <= month e)%Z) ->
  exists d : list (string * Qc),
    monthly_breakdown_items store now y = Some d
    /\ map Some (map fst d) = map month_name (range1 (months_so_far now y))
    /\ map snd d
       = map (fun m => get_monthly_total store m y)
             (range1 (months_so_far now y)).
Proof.
  intros Hclock Hmonths.
  destruct (monthly_breakdown_items_spec store now y Hclock Hmonths)
    as (d & Hitems & Hnames & Hnd & Hget).
  exists d. split; [exact Hitems|]. split.
  - clear Hget Hnd.
    induction Hnames as [|m s ms names Hs _ IH]; [reflexivity|].
    cbn [map]. rewrite Hs, IH. reflexivity.
  - rewrite (od_values_by_keys d Hnd).
    apply (Forall2_map_agree _ _ _ _ _ Hnames).
    intros m s Hm Hs. apply elem_of_range1 in Hm.
    rewrite (Hget m s Hm Hs). reflexivity.
Qed.

Lemma highest_spending_month_runs
    (store : list expense) (now : clock) (y : Z) (d : list (string * Qc)) :
  monthly_breakdown_items store now y = Some d ->
  highest_spending_month store now y = Some (highest_of d).
Proof. intros Hd. unfold highest_spending_month. rewrite Hd. reflexivity. Qed.

(** X21.  With the clock at a month from 1 to 12 and stored months of at
    least 1, the dashboard of the current year (asked for by name or by
    default) is rendered: it is labelled with the name of the current
    month, its monthly total is the total of the current month, which is
    also the last value of its monthly chart, the chart has one entry per
    month so far, and the alerts are those of the current month. *)
Theorem dashboard_current_year
    (store : list expense) (budgets : list budget) (now : clock)
    (year_arg : option Z)
    (Hclock : (1 <= current_month now <= 12)%Z)
    (Hmonths : forall e, e ∈ store -> (1 <= month e)%Z)
    (Hyear : year_arg = None \/ year_arg = Some (current_year now)) :
  let cy := current_year now in
  let cm := current_month now in
  exists ctx : dashboard_context,
    dashboard store budgets now year_arg = Some ctx
    /\ ctx_year ctx = cy
    /\ month_name cm = Some (ctx_month_name ctx)
    /\ ctx_monthly_total ctx = Some (get_monthly_total store cm cy)
    /\ last (data (ctx_monthly_chart ctx)) = Some (get_monthly_total store cm cy)
    /\ length (labels (ctx_monthly_chart ctx)) = Z.to_nat cm
    /\ ctx_budget_alerts ctx = budget_alerts store budgets cm cy.
Proof.
  intros cy cm. subst cy cm.
  assert (Hy : default (current_year now) year_arg = current_year now)
    by (destruct Hyear as [->| ->]; reflexivity).
  destruct (monthly_breakdown_items_values store now (current_year now)
              Hclock Hmonths)
    as (d & Hitems & Hlabels & Hvalues).
  assert (HK : months_so_far now (current_year now) = current_month now)
    by (unfold months_so_far; rewrite decide_True by reflexivity; reflexivity).
  rewrite HK in Hlabels, Hvalues.
  destruct (month_name_is_Some (current_month now) Hclock) as (name & Hname & _).
  assert (Hgiven : month_num_given (Some (current_month now))
                   = Some (current_month now)).
  { unfold month_num_given. rewrite decide_False by lia. reflexivity. }
  unfold dashboard. cbv zeta. rewrite Hy.
  rewrite (decide_True (P := current_year now = current_year now)) by reflexivity.
  rewrite Hgiven, Hname. cbn [mbind option_bind].
  rewrite Hitems. cbn [mbind option_bind].
  rewrite (highest_spending_month_runs _ _ _ _ Hitems). cbn [mbind option_bind].
  eexists. split; [reflexivity|].
  cbn [ctx_year ctx_month_name ctx_monthly_total ctx_monthly_chart
       ctx_budget_alerts ctx_avg_monthly_spend chart_data data labels].
  split; [reflexivity|]. split; [reflexivity|]. split; [reflexivity|].
  split; [|split; [|reflexivity]].
  - rewrite Hvalues, last_map, range1_last by lia. reflexivity.
  - rewrite <- (length_map Some), Hlabels, length_map. apply length_range1.
Qed.

Lemma dashboard_current_year_witness :
  exists ctx : dashboard_context,
    dashboard example_expenses example_budgets example_clock None = Some ctx
    /\ ctx_monthly_total ctx = Some (get_monthly_total example_expenses 3 2024)
    /\ last (data (ctx_monthly_chart ctx))
       = Some (get_monthly_total example_expenses 3 2024).
Proof.
  assert (Hclock : (1 <= current_month example_clock <= 12)%Z) by (simpl; lia).
  assert (Hmonths : forall e, e ∈ example_expenses -> (1 <= month e)%Z).
  { apply Forall_forall. compute_done. }
  destruct (dashboard_current_year example_expenses example_budgets
              example_clock None Hclock Hmonths (or_introl eq_refl))
    as (ctx & Hcall & _ & _ & Htotal & Hlast & _).
  exists ctx. split; [exact Hcall|]. split; assumption.
Defined.

(** X22.  With the clock at a month from 1 to 12 and stored months of at
    least 1, the dashboard of any year other than the current one is
    rendered for the full year: its label is "Full Year", it has no
    monthly total and no budget alerts, and its monthly chart has twelve
    entries, the totals of the twelve months. *)
Theorem dashboard_other_year
    (store : list expense) (budgets : list budget) (now : clock) (y : Z)
    (Hclock : (1 <= current_month now <= 12)%Z)
    (Hmonths : forall e, e ∈ store -> (1 <= month e)%Z)
    (Hother : y <> current_year now) :
  exists ctx : dashboard_context,
    dashboard store budgets now (Some y) = Some ctx
    /\ ctx_year ctx = y
    /\ ctx_month_name ctx = "Full Year"%string
    /\ ctx_monthly_total ctx = None
    /\ ctx_budget_alerts ctx = []
    /\ length (labels (ctx_monthly_chart ctx)) = 12%nat
    /\ data (ctx_monthly_chart ctx)
       = map (fun m => get_monthly_total store m y) (range1 12).
Proof.
  destruct (monthly_breakdown_items_values store now y Hclock Hmonths)
    as (d & Hitems & Hlabels & Hvalues).
  assert (HK : months_so_far now y = 12%Z)
    by (unfold months_so_far; rewrite decide_False by exact Hother; reflexivity).
  rewrite HK in Hlabels, Hvalues.
  unfold dashboard. cbv zeta.
  change (default (current_year now) (Some y)) with y.
  rewrite (decide_False (P := y = current_year now)) by exact Hother.
  cbn [month_num_given mbind option_bind].
  rewrite Hitems. cbn [mbind option_bind].
  rewrite (highest_spending_month_runs _ _ _ _ Hitems). cbn [mbind option_bind].
  eexists. split; [reflexivity|].
  cbn [ctx_year ctx_month_name ctx_monthly_total ctx_monthly_chart
       ctx_budget_alerts ctx_avg_monthly_spend chart_data data labels].
  split; [reflexivity|]. split; [reflexivity|]. split; [reflexivity|].
  split; [reflexivity|]. split; [|exact Hvalues].
  rewrite <- (length_map Some), Hlabels, length_map. apply length_range1.
Qed.

Lemma dashboard_other_year_witness :
  exists ctx : dashboard_context,
    dashboard example_expenses example_budgets example_clock (Some 2023%Z)
    = Some ctx
    /\ ctx_month_name ctx = "Full Year"%string
    /\ ctx_budget_alerts ctx = [].
Proof.
  assert (Hclock : (1 <= current_month example_clock <= 12)%Z) by (simpl; lia).
  assert (Hmonths : forall e, e ∈ example_expenses -> (1 <= month e)%Z).
  { apply Forall_forall. compute_done. }
  assert (Hother : 2023%Z <> current_year example_clock) by (simpl; lia).
  destruct (dashboard_other_year example_expenses example_budgets
              example_clock 2023 Hclock Hmonths Hother)
    as (ctx & Hcall & _ & Hlabel & _ & Halerts & _).
  exists ctx. split; [exact Hcall|]. split; assumption.
Defined.

(** X23.  A record that counts for a year and is stored with month 0
    makes the dashboard of that year fail, whatever else is stored and
    whichever way the year is chosen, as soon as the clock month is not
    negative. *)
Theorem dashboard_fails_on_month_zero
    (store : list expense) (budgets : list budget) (now : clock)
    (year_arg : option Z) (e : expense)
    (Hclock : (0 <= current_month now)%Z)
    (He : e ∈ store)
    (Hcounts : counts_for_year (default (current_year now) year_arg) e)
    (Hzero : month e = 0%Z) :
  dashboard store budgets now year_arg = None.
Proof.
  pose proof (get_monthly_breakdown_month_zero store now _ e Hclock He Hcounts Hzero)
    as Hfail.
  rewrite <- monthly_breakdown_items_refine in Hfail.
  unfold dashboard. cbv zeta.
  destruct (monthly_breakdown_items store now (default (current_year now) year_arg));
    [discriminate|].
  destruct (match month_num_given _ with Some m => month_name m | None => _ end);
    reflexivity.
Qed.

Lemma dashboard_fails_on_month_zero_witness :
  dashboard
    [ {| amount := Q2Qc 5; category := "Food"; description := "import";
         payment_mode := "cash"; date := "2024-00-05"; month := 0; year := 2024;
         is_shared := false; is_deleted := false |} ]%string
    example_budgets example_clock None = None.
Proof.
  eapply (dashboard_fails_on_month_zero _ example_budgets example_clock None).
  - simpl. lia.
  - apply list_elem_of_here.
  - repeat split.
  - reflexivity.
Defined.

(** ** The expense list *)

Lemma view_matches_shown (args : view_args) (e : expense) :
  view_matches
    {| vq_base := {| q_month := if_truthy (arg_month args);
                     q_year := if_truthy (arg_year args);
                     q_is_deleted := Some false; q_is_shared := Some false |};
       vq_category := if_nonempty (arg_category args);
       vq_date := if_nonempty (arg_date args) |} e = true
  <-> shown_by args e.
Proof.
  unfold view_matches, shown_by. cbn [vq_base vq_category vq_date].
  rewrite !andb_true_iff.
  assert (Hbase : matches
            {| q_month := if_truthy (arg_month args);
               q_year := if_truthy (arg_year args);
               q_is_deleted := Some false; q_is_shared := Some false |} e = true
          <-> selected_by (arg_month args) (arg_year args) e).
  { pose proof (find_selected_by [e] (arg_month args) (arg_year args)) as Hf.
    unfold find in Hf. rewrite !filter_cons, !filter_nil in Hf.
    destruct (decide (matches _ e = true)) as [Hm|Hm];
      destruct (decide (selected_by (arg_month args) (arg_year args) e)) as [Hs|Hs];
      try discriminate; tauto. }
  assert (Htext : forall arg v,
            field_ok (if_nonempty arg) v = true <-> passes_text arg v).
  { intros [a|] v; cbn [if_nonempty passes_text field_ok]; [|tauto].
    destruct (decide (a = ""%string)) as [->|Hne]; cbn [field_ok].
    - tauto.
    - rewrite bool_decide_eq_true. split; [tauto|intros [?|?]; [contradiction|assumption]]. }
  rewrite Hbase, !Htext. tauto.
Qed.

Lemma date_le_total : Total date_le.
Proof. intros a b. apply String.leb_total. Qed.

Lemma date_ge_total : Total (flip date_le).
Proof. intros a b. apply String.leb_total. Qed.

(** X24.  The expense list shows exactly the expenses that are neither
    deleted nor shared and pass every filter given, each as often as it
    is stored; a month or year of 0 and an empty category or date filter
    nothing.  With [sort] missing or "newest" the stored dates descend
    down the list (compared as strings), with any other value they
    ascend. *)
Theorem view_expenses_filters_and_sorts
    (store : list expense) (args : view_args) :
  let shown := page_expenses (view_expenses store args) in
  Permutation shown (filter (shown_by args) store)
  /\ (forall e, e ∈ shown <-> e ∈ store /\ shown_by args e)
  /\ (if decide (default "newest"%string (arg_sort args) = "newest"%string)
      then Sorted (fun a b => String.leb (date b) (date a) = true) shown
      else Sorted (fun a b => String.leb (date a) (date b) = true) shown).
Proof.
  intros shown. subst shown. unfold view_expenses. cbv zeta.
  cbn [page_expenses].
  rewrite (list_filter_iff _ (shown_by args)) by apply view_matches_shown.
  assert (Hperm : forall order l, Permutation (sort_by_date order l) l).
  { intros order l. unfold sort_by_date.
    destruct (decide (order = 1%Z)); apply merge_sort_Permutation. }
  split; [apply Hperm|]. split.
  - intros e. rewrite (Hperm _ _), list_elem_of_filter. tauto.
  - destruct (decide (default "newest"%string (arg_sort args) = "newest"%string)).
    + unfold sort_by_date. rewrite decide_False by discriminate.
      apply (@Sorted_merge_sort _ (flip date_le) _ date_ge_total).
    + unfold sort_by_date. rewrite decide_True by reflexivity.
      apply (@Sorted_merge_sort _ date_le _ date_le_total).
Qed.

(** * Properties in binary floating point

    The statements below are about the embedding over binary64 floats:
    every sum, difference, quotient and comparison is the float
    operation the code performs, in the order the code performs it. *)

Section Binary64Facts.

Import PrimFloat Binary64.

Local Open Scope float_scope.

(** ** Floats *)


(** What Python prints for [round(x, 2)] at some floats [x]: the float
    quotients 0.45 / 6 and 0.06 / 12 lie just below and just above the
    decimal tie, 0.125 and 0.375 are exact ties, and a float too large to
    have a fraction is returned as it is. *)
Lemma py_round2_samples :
  py_round2 (0.45 / 6) = 0.07
  /\ py_round2 (0.06 / 12) = 0.01
  /\ py_round2 2.675 = 2.67
  /\ py_round2 0.125 = 0.12
  /\ py_round2 0.375 = 0.38
  /\ py_round2 (-0.001) = neg_zero
  /\ py_round2 (1e17 / 3) = 33333333333333332
  /\ py_round2 infinity = infinity
  /\ py_round2 nan = nan.
Proof. repeat split; reflexivity. Qed.

(** The nearest integer is within one half. *)
Lemma round_half_even_close (x : Q) :
  (inject_Z (round_half_even x) - (1 # 2) <= x
   /\ x <= inject_Z (round_half_even x) + (1 # 2))%Q.
Proof.
  unfold round_half_even.
  pose proof (Qfloor_le x) as Hlo.
  pose proof (Qlt_floor x) as Hhi.
  set (f := Qfloor x) in *.
  rewrite inject_Z_plus in Hhi. change (inject_Z 1) with 1%Q in Hhi.
  destruct (Qcompare (x - inject_Z f) (1 # 2)) eqn:Hc.
  - apply Qeq_alt in Hc.
    destruct (Z.even f); [|rewrite inject_Z_plus; change (inject_Z 1) with 1%Q];
      split; lra.
  - apply Qlt_alt in Hc. split; lra.
  - apply Qgt_alt in Hc. rewrite inject_Z_plus. change (inject_Z 1) with 1%Q.
    split; lra.
Qed.

(** [round(x, 2)] is [x] rounded to two decimal places. *)
Lemma py_round2_rounded (x : float) : rounded_to_cents x (py_round2 x).
Proof.
  unfold rounded_to_cents, py_round2.
  destruct (FloatOps.Prim2SF x) as [s|s| |s m e]; try reflexivity.
  eexists. split; [reflexivity|]. apply round_half_even_close.
Qed.

Lemma py_sum_snoc (xs : list float) (x : float) :
  py_sum (xs ++ [x]) = py_sum xs + x.
Proof. unfold py_sum. rewrite fold_left_app. reflexivity. Qed.

(** ** Monthly and yearly totals *)

Lemma matches_counts_for (m y : Z) (e : expense) :
  matches {| q_month := Some m; q_year := Some y;
             q_is_deleted := Some false; q_is_shared := Some false |} e = true
  <-> counts_for m y e.
Proof.
  unfold matches, counts_for, field_ok. simpl.
  rewrite !andb_true_iff, !bool_decide_eq_true. tauto.
Qed.

Lemma matches_counts_for_year (y : Z) (e : expense) :
  matches {| q_month := None; q_year := Some y;
             q_is_deleted := Some false; q_is_shared := Some false |} e = true
  <-> counts_for_year y e.
Proof.
  unfold matches, counts_for_year, field_ok. simpl.
  rewrite !andb_true_iff, !bool_decide_eq_true. tauto.
Qed.

Lemma find_counts_for (m y : Z) (store : list expense) :
  find {| q_month := Some m; q_year := Some y;
          q_is_deleted := Some false; q_is_shared := Some false |} store
  = filter (counts_for m y) store.
Proof. apply list_filter_iff. intros e. apply matches_counts_for. Qed.

Lemma find_counts_for_year (y : Z) (store : list expense) :
  find {| q_month := None; q_year := Some y;
          q_is_deleted := Some false; q_is_shared := Some false |} store
  = filter (counts_for_year y) store.
Proof. apply list_filter_iff. intros e. apply matches_counts_for_year. Qed.

Lemma monthly_total_counted (store : list expense) (m y : Z) :
  get_monthly_total store m y
  = py_sum (map amount (filter (counts_for m y) store)).
Proof. unfold get_monthly_total. rewrite find_counts_for. reflexivity. Qed.

Lemma yearly_total_counted (store : list expense) (y : Z) :
  get_yearly_total store y
  = py_sum (map amount (filter (counts_for_year y) store)).
Proof. unfold get_yearly_total. rewrite find_counts_for_year. reflexivity. Qed.

(** C8, as the code has it.  [get_monthly_total] is the float sum,
    taken from 0 in storage order, of [amount] over exactly the records
    of the given month and year that are neither deleted nor shared: the
    empty collection gives 0, a record stored last adds its amount to
    the total of the records before it when it counts and changes nothing
    when it does not, the records that do not count have no influence,
    and the total is 0 when no record counts. *)
Theorem get_monthly_total_in_storage_order
    (store : list expense) (m y : Z) :
  get_monthly_total store m y
  = py_sum (map amount (filter (counts_for m y) store))
  /\ get_monthly_total [] m y = 0
  /\ (forall e,
        get_monthly_total (store ++ [e]) m y
        = if decide (counts_for m y e)
          then get_monthly_total store m y + amount e
          else get_monthly_total store m y)
  /\ get_monthly_total (filter (counts_for m y) store) m y
     = get_monthly_total store m y
  /\ ((forall e, e ∈ store -> ~ counts_for m y e) ->
      get_monthly_total store m y = 0).
Proof.
  split; [apply monthly_total_counted|]. split; [reflexivity|].
  split; [|split].
  - intros e. rewrite !monthly_total_counted, filter_app, filter_cons, filter_nil.
    destruct (decide (counts_for m y e)).
    + rewrite map_app. apply py_sum_snoc.
    + rewrite app_nil_r. reflexivity.
  - rewrite !monthly_total_counted, list_filter_filter.
    f_equal. f_equal. apply list_filter_iff. tauto.
  - intros Hnone. rewrite monthly_total_counted.
    rewrite filter_none by exact Hnone. reflexivity.
Qed.

(** C8 fails as stated: the total depends on the order in which the
    records are stored.  Expenses of 0.1, 0.2 and 0.3 total
    0.6000000000000001, and the same three stored in the opposite order
    total 0.6. *)
Lemma get_monthly_total_depends_on_order :
  Permutation example_tenths (rev example_tenths)
  /\ get_monthly_total example_tenths 1 2024 = 0.6000000000000001
  /\ get_monthly_total (rev example_tenths) 1 2024 = 0.6
  /\ get_monthly_total (rev example_tenths) 1 2024
     <> get_monthly_total example_tenths 1 2024.
Proof.
  split; [apply Permutation_rev|]. split; [reflexivity|].
  split; [reflexivity|].
  intros Heq. apply (f_equal (fun total => 0.6 <? total)) in Heq.
  vm_compute in Heq. discriminate.
Qed.

(** C9.  With [K] the current month when the year is the current year
    and 12 otherwise, [average_monthly_spend] is 0 when [K] is 0 and
    otherwise [round(total / K, 2)], the float quotient of the yearly
    total by [K] rounded to two decimal places as Python rounds a float;
    the yearly total is the float sum, in storage order, of [amount]
    over the records of that year that are neither deleted nor shared.
    A single expense of 0.06 in a past year averages 0.01: the float
    0.06 / 12 lies above 0.005. *)
Theorem average_monthly_spend_value
    (store : list expense) (now : clock) (y : Z) :
  let K := months_so_far now y in
  let quotient := get_yearly_total store y / of_int K in
  (K = 0%Z -> average_monthly_spend store now y = 0)
  /\ (K <> 0%Z ->
      average_monthly_spend store now y = py_round2 quotient
      /\ rounded_to_cents quotient (average_monthly_spend store now y))
  /\ get_yearly_total store y
     = py_sum (map amount (filter (counts_for_year y) store))
  /\ average_monthly_spend example_2023 example_clock 2023 = 0.01.
Proof.
  intros K quotient. subst K quotient.
  unfold average_monthly_spend, months_so_far.
  split; [|split; [|split]].
  - intros HK. rewrite decide_True by exact HK. reflexivity.
  - intros HK. rewrite decide_False by exact HK.
    split; [reflexivity|apply py_round2_rounded].
  - apply yearly_total_counted.
  - reflexivity.
Qed.

(** ** Budget alerts *)







(** ** Intake of shared expenses *)

(** C3, as the code has it.  The stored [per_person_amount] is
    [round(total_amount / n, 2)], where [n] is the length of the stored
    [participants] sequence, which already counts the payer (one more
    than the number of other participants, so never zero); the quotient
    is the float quotient and is rounded as Python rounds a float.  A
    total of 0.45 between six people stores 0.07: the float 0.45 / 6
    lies below 0.075. *)
Theorem add_shared_expense_per_person
    {char : Type} `{EqDecision char} (comma : char) (isspace : char -> bool)
    (form_title payer raw form_date : list char) (total : float) :
  let exp := add_shared_expense comma isspace form_title payer raw form_date total in
  let share := total_amount exp / of_int (Z.of_nat (length (participants exp))) in
  per_person_amount exp = py_round2 share
  /\ rounded_to_cents share (per_person_amount exp)
  /\ total_amount exp = total
  /\ length (participants exp)
     = S (length (others_of comma isspace payer raw))
  /\ per_person_amount (created "B,C,D,E,F" 0.45) = 0.07.
Proof.
  intros exp share. subst exp share.
  split; [reflexivity|]. split; [apply py_round2_rounded|].
  repeat split.
Qed.

(** C3 fails as stated: for payer "A", the input "B,C" and a total of 90
    three people are stored and the share is 90 / 3 = 30, not
    90 / (1 + 3) = 22.5. *)
Lemma per_person_divides_by_stored_length :
  let exp := created "B,C" 90 in
  length (participants exp) = 3%nat
  /\ per_person_amount exp = 30
  /\ py_round2 (total_amount exp
                / of_int (1 + Z.of_nat (length (participants exp)))) = 22.5
  /\ per_person_amount exp
     <> py_round2 (total_amount exp
                   / of_int (1 + Z.of_nat (length (participants exp)))).
Proof.
  repeat split.
  intros Heq. apply (f_equal (fun share => 22.5 <? share)) in Heq.
  vm_compute in Heq. discriminate.
Qed.

(** ** The ledger *)

Section LedgerFloatFacts.

Context {char : Type} `{Countable char}.

Implicit Types (balances : gmap (list char) float) (exp : shared_expense char)
  (k p : list char) (ps : list (list char)).

Lemma setdefault_entry balances k p (v : float) :
  setdefault p v balances !! k
  = if decide (k = p) then Some (default v (balances !! p)) else balances !! k.
Proof.
  unfold setdefault. destruct (decide (k = p)) as [->|Hne].
  - destruct (balances !! p) eqn:Hp; [exact Hp|apply lookup_insert_eq].
  - destruct (balances !! p); [reflexivity|].
    apply lookup_insert_ne. congruence.
Qed.

Lemma debited_S (n : nat) (per b : float) :
  debited (S n) per b = debited n per (b - per).
Proof. unfold debited. rewrite Nat.iter_succ_r. reflexivity. Qed.

Lemma listings_cons k p ps :
  listings k (p :: ps)
  = if decide (p = k) then S (listings k ps) else listings k ps.
Proof.
  unfold listings. rewrite filter_cons.
  destruct (decide (p = k)); reflexivity.
Qed.

Lemma listings_zero k ps : listings k ps = 0%nat <-> k ∉ ps.
Proof.
  induction ps as [|p ps IH].
  - split; [intros _; apply not_elem_of_nil|reflexivity].
  - rewrite listings_cons, not_elem_of_cons.
    destruct (decide (p = k)) as [->|Hne].
    + split; [discriminate|tauto].
    + rewrite IH. split; [intros Hk; split; [congruence|exact Hk]|tauto].
Qed.

(** The debit loop changes the entry of [k] once per listing of [k]. *)
Lemma debit_loop_entry (per : float) ps balances k :
  fold_left
    (fun balances p => alter (fun b => b - per) p (setdefault p 0 balances))
    ps balances !! k
  = match listings k ps with
    | O => balances !! k
    | n => Some (debited n per (default 0 (balances !! k)))
    end.
Proof.
  revert balances. induction ps as [|p ps IH]; intros balances; [reflexivity|].
  cbn [fold_left]. rewrite IH, listings_cons.
  destruct (decide (p = k)) as [->|Hne].
  - rewrite lookup_alter_eq, setdefault_entry, decide_True by reflexivity.
    cbn [fmap option_fmap option_map default].
    rewrite debited_S.
    destruct (listings k ps); reflexivity.
  - rewrite lookup_alter_ne by exact Hne.
    rewrite setdefault_entry, decide_False by congruence. reflexivity.
Qed.

(** One record changes the entry of [k] as [entry_after] says, whatever
    the other entries are. *)
Lemma net_step_entry balances exp k :
  net_step balances exp !! k = entry_after exp k (balances !! k).
Proof.
  unfold net_step, entry_after. rewrite debit_loop_entry.
  assert (Hcredited :
    alter (fun b => b + total_amount exp) (paid_by exp)
      (setdefault (paid_by exp) 0 balances) !! k
    = if decide (k = paid_by exp)
      then Some (default 0 (balances !! k) + total_amount exp)
      else balances !! k).
  { destruct (decide (k = paid_by exp)) as [->|Hne].
    - rewrite lookup_alter_eq, setdefault_entry, decide_True by reflexivity.
      reflexivity.
    - rewrite lookup_alter_ne by congruence.
      rewrite setdefault_entry, decide_False by exact Hne. reflexivity. }
  rewrite Hcredited. reflexivity.
Qed.

Lemma entry_after_is_Some exp k (old : option float) :
  is_Some (entry_after exp k old)
  <-> is_Some old \/ k = paid_by exp \/ k ∈ participants exp.
Proof.
  unfold entry_after.
  destruct (listings k (participants exp)) as [|n] eqn:Hn.
  - apply listings_zero in Hn.
    destruct (decide (k = paid_by exp)) as [->|Hne].
    + split; [tauto|intros _; eexists; reflexivity].
    + tauto.
  - assert (Hin : k ∈ participants exp).
    { destruct (decide (k ∈ participants exp)) as [Hin|Hnin]; [exact Hin|].
      apply listings_zero in Hnin. congruence. }
    split; [tauto|intros _; eexists; reflexivity].
Qed.

Lemma entry_after_unnamed exp k (old : option float) :
  k <> paid_by exp -> k ∉ participants exp -> entry_after exp k old = old.
Proof.
  intros Hne Hnin. unfold entry_after.
  rewrite decide_False by exact Hne.
  apply listings_zero in Hnin. rewrite Hnin. reflexivity.
Qed.

Lemma calculate_net_balances_last (l : list (shared_expense char)) exp :
  calculate_net_balances (l ++ [exp])
  = if is_settled exp then calculate_net_balances l
    else net_step (calculate_net_balances l) exp.
Proof.
  unfold calculate_net_balances, find_unsettled.
  rewrite filter_app, filter_cons, filter_nil.
  destruct (is_settled exp).
  - rewrite decide_False by discriminate. rewrite app_nil_r. reflexivity.
  - rewrite decide_True by reflexivity. rewrite fold_left_app. reflexivity.
Qed.

Lemma calculate_net_balances_single exp k :
  calculate_net_balances [exp] !! k
  = if is_settled exp then None else entry_after exp k None.
Proof.
  change [exp] with ([] ++ [exp]). rewrite calculate_net_balances_last.
  destruct (is_settled exp); [apply lookup_empty|].
  rewrite net_step_entry. unfold calculate_net_balances. simpl.
  rewrite lookup_empty. reflexivity.
Qed.

Lemma calculate_net_balances_pair exp1 exp2 k :
  calculate_net_balances [exp1; exp2] !! k
  = if is_settled exp2 then calculate_net_balances [exp1] !! k
    else entry_after exp2 k (calculate_net_balances [exp1] !! k).
Proof.
  change [exp1; exp2] with ([exp1] ++ [exp2]).
  rewrite calculate_net_balances_last.
  destruct (is_settled exp2); [reflexivity|apply net_step_entry].
Qed.

End LedgerFloatFacts.

(** C4, as the code has it.  In a record built by [add_shared_expense]
    the payer is the first stored participant and is stored once.  The
    balances of that record alone therefore give the payer
    [total_amount] less one [per_person_amount], give every other
    stored participant 0 less one [per_person_amount] for each time the
    participant is stored, and have no entry for anybody else; every
    difference is a float difference. *)
Theorem created_record_debits_payer
    {char : Type} `{Countable char} (comma : char) (isspace : char -> bool)
    (form_title payer raw form_date : list char) (total : float) :
  let exp := add_shared_expense comma isspace form_title payer raw form_date total in
  let balances := calculate_net_balances [exp] in
  head (participants exp) = Some (paid_by exp)
  /\ listings (paid_by exp) (participants exp) = 1%nat
  /\ balances !! paid_by exp
     = Some (0 + total_amount exp - per_person_amount exp)
  /\ (forall k, k <> paid_by exp -> k ∈ participants exp ->
        balances !! k
        = Some (debited (listings k (participants exp))
                  (per_person_amount exp) 0))
  /\ (forall k, k ∉ participants exp -> balances !! k = None).
Proof.
  intros exp balances.
  assert (Hone : listings (paid_by exp) (participants exp) = 1%nat).
  { subst exp. cbn [participants paid_by add_shared_expense app].
    rewrite listings_cons, decide_True by reflexivity. f_equal.
    apply listings_zero. intros Hin. apply others_of_elem in Hin. tauto. }
  assert (Hentry : forall k, balances !! k = entry_after exp k None).
  { intros k. subst balances. rewrite calculate_net_balances_single.
    reflexivity. }
  split; [reflexivity|]. split; [exact Hone|]. split; [|split].
  - rewrite Hentry. unfold entry_after.
    rewrite Hone, decide_True by reflexivity. reflexivity.
  - intros k Hne Hin. rewrite Hentry. unfold entry_after.
    rewrite decide_False by exact Hne.
    destruct (listings k (participants exp)) eqn:Hn; [|reflexivity].
    apply listings_zero in Hn. contradiction.
  - intros k Hnin. rewrite Hentry. apply entry_after_unnamed; [|exact Hnin].
    intros ->. apply Hnin. subst exp. apply list_elem_of_here.
Qed.

(** C4 fails as stated: the balances of one created record need not add
    up to [total_amount] less one [per_person_amount] per stored
    participant, nor to anything near zero.  For a total of 1e17 paid by
    A for A, B and C the stored share is 33333333333333332; A's balance,
    the float difference of the two, is 66666666666666672, and the three
    balances add up to 8, as floats in the order of the dictionary and
    as exact numbers, while the total less three shares is 0 as a float
    and 4 as an exact number. *)
Lemma created_balances_do_not_cancel :
  let exp := created "B,C" 1e17 in
  let balances := calculate_net_balances [exp] in
  participants exp = [chars "A"; chars "B"; chars "C"]
  /\ per_person_amount exp = 33333333333333332
  /\ balances !! chars "A" = Some 66666666666666672
  /\ balances !! chars "B" = Some (-33333333333333332)
  /\ balances !! chars "C" = Some (-33333333333333332)
  /\ py_sum [66666666666666672; -33333333333333332; -33333333333333332] = 8
  /\ total_amount exp - of_int 3 * per_person_amount exp = 0
  /\ (exact 66666666666666672 + exact (-33333333333333332)
      + exact (-33333333333333332) == 8)%Q
  /\ (exact (total_amount exp) - 3 * exact (per_person_amount exp) == 4)%Q
  /\ (of_int 3 * 0.005 <? 8) = true.
Proof. repeat split; vm_compute; reflexivity. Qed.

(** C10, as the code has it.  The balances of two records taken
    together are the balances of the first with the credit and the
    debits of the second applied on top, in float arithmetic.  Their
    keys are the keys of the two separate balance mappings together; a
    participant only the first record names has the balance of the
    first record alone, a participant only the second record names has
    the balance of the second record alone, and for a participant both
    name the second record works on the balance the first left.  The
    same holds for a sequence of records followed by one more record; a
    settled record changes nothing. *)
Theorem calculate_net_balances_sequential
    {char : Type} `{Countable char}
    (exp1 exp2 : shared_expense char) (l : list (shared_expense char)) :
  (forall k,
     calculate_net_balances [exp1; exp2] !! k
     = if is_settled exp2 then calculate_net_balances [exp1] !! k
       else entry_after exp2 k (calculate_net_balances [exp1] !! k))
  /\ dom (calculate_net_balances [exp1; exp2])
     = dom (calculate_net_balances [exp1]) ∪ dom (calculate_net_balances [exp2])
  /\ (forall k, calculate_net_balances [exp2] !! k = None ->
        calculate_net_balances [exp1; exp2] !! k
        = calculate_net_balances [exp1] !! k)
  /\ (forall k, calculate_net_balances [exp1] !! k = None ->
        calculate_net_balances [exp1; exp2] !! k
        = calculate_net_balances [exp2] !! k)
  /\ calculate_net_balances (l ++ [exp2])
     = (if is_settled exp2 then calculate_net_balances l
        else net_step (calculate_net_balances l) exp2)
  /\ (forall k,
        calculate_net_balances (l ++ [exp2]) !! k
        = if is_settled exp2 then calculate_net_balances l !! k
          else entry_after exp2 k (calculate_net_balances l !! k)).
Proof.
  assert (Hfirst : forall k, calculate_net_balances [exp2] !! k = None ->
            calculate_net_balances [exp1; exp2] !! k
            = calculate_net_balances [exp1] !! k).
  { intros k Hk. rewrite calculate_net_balances_pair.
    rewrite calculate_net_balances_single in Hk.
    destruct (is_settled exp2); [reflexivity|].
    apply entry_after_unnamed.
    - intros ->. apply eq_None_not_Some in Hk. apply Hk.
      apply entry_after_is_Some. right. left. reflexivity.
    - intros Hin. apply eq_None_not_Some in Hk. apply Hk.
      apply entry_after_is_Some. right. right. exact Hin. }
  assert (Hsecond : forall k, calculate_net_balances [exp1] !! k = None ->
            calculate_net_balances [exp1; exp2] !! k
            = calculate_net_balances [exp2] !! k).
  { intros k Hk.
    rewrite calculate_net_balances_pair, (calculate_net_balances_single exp2), Hk.
    reflexivity. }
  split; [apply calculate_net_balances_pair|]. split; [|split; [exact Hfirst|]].
  - apply set_eq. intros k. rewrite elem_of_union, !elem_of_dom.
    rewrite calculate_net_balances_pair.
    rewrite (calculate_net_balances_single exp2).
    destruct (is_settled exp2).
    + split; [tauto|]. intros [Hk|Hk]; [exact Hk|].
      destruct Hk as [? Hk]. discriminate.
    + rewrite !entry_after_is_Some. split; [tauto|].
      intros [Hk|[Hk|Hk]]; [tauto|destruct Hk; discriminate|tauto].
  - split; [exact Hsecond|]. split; [apply calculate_net_balances_last|].
    intros k. rewrite calculate_net_balances_last.
    destruct (is_settled exp2); [reflexivity|apply net_step_entry].
Qed.

(** C10 fails as stated: the balances of two records together are not
    the sums of the balances of each.  The intake stores a share of 0
    for a total of 0.01 and a share of 0.01 for a total of 0.02, each
    paid by A for A, B and C.  A's balance is 0.01 for either record
    alone, and 0.01 + 0.01 = 0.02, but for the two records together it
    is 0.01 + 0.02 - 0.01, which is 0.019999999999999997 as a float. *)
Lemma calculate_net_balances_not_additive :
  let exp1 := created "B,C" 0.01 in
  let exp2 := created "B,C" 0.02 in
  calculate_net_balances [exp1] !! chars "A" = Some 0.01
  /\ calculate_net_balances [exp2] !! chars "A" = Some 0.01
  /\ 0.01 + 0.01 = 0.02
  /\ calculate_net_balances [exp1; exp2] !! chars "A"
     = Some 0.019999999999999997
  /\ calculate_net_balances [exp1; exp2] !! chars "A" <> Some (0.01 + 0.01).
Proof.
  repeat split; try (vm_compute; reflexivity).
  intros Heq.
  apply (f_equal (fun b => default false ((fun v => v <? 0.02) <$> b))) in Heq.
  vm_compute in Heq. discriminate.
Qed.

End Binary64Facts.
